(** * TrendRadar content filter: [trendradar/core/content_filter.py]

    A shallow embedding of the three functions of the module,
    [matches_content_category], [filter_results_by_category] and
    [filter_rss_items_by_category], and the properties of its specification.

    - A Python [str] is a sequence of Unicode code points: [list N].
    - A Python [dict] keeps insertion order: an association list whose keys
      are pairwise distinct ([dict_wf]); [d[k] = v] is [dict_set].
    - [print] is the only effect: every filter returns its value together
      with the lines it wrote ([Out]).
    - [str.lower] belongs to the Python runtime, not to the module: the
      functions take it as a parameter [lower]; [py_lower] is its behaviour
      on ASCII and basic Greek text, used to run the code on concrete input. *)

From Stdlib Require Import List NArith Bool Arith Lia String Ascii DecimalString.
Import ListNotations.

Set Implicit Arguments.

(** ** Strings *)

Definition str := list N.

Definition of_ascii (s : string) : str :=
  map N_of_ascii (list_ascii_of_string s).

Fixpoint str_eqb (a b : str) : bool :=
  match a, b with
  | [], [] => true
  | x :: a', y :: b' => N.eqb x y && str_eqb a' b'
  | _, _ => false
  end.

Fixpoint startswith (sub s : str) : bool :=
  match sub, s with
  | [], _ => true
  | _ :: _, [] => false
  | x :: sub', y :: s' => N.eqb x y && startswith sub' s'
  end.

(** [sub in s] on strings: [sub] occurs in [s] as a contiguous run. *)
Fixpoint str_in (sub s : str) : bool :=
  startswith sub s ||
  match s with
  | [] => false
  | _ :: s' => str_in sub s'
  end.

(** [sep.join(parts)] *)
Fixpoint join (sep : str) (parts : list str) : str :=
  match parts with
  | [] => []
  | [p] => p
  | p :: rest => p ++ sep ++ join sep rest
  end.

(** [str(n)] for a non-negative integer, as in an f-string. *)
Definition str_of_nat (n : nat) : str :=
  of_ascii (NilZero.string_of_uint (Nat.to_uint n)).

(** ** [str.lower()] on ASCII and basic Greek

    [py_lower] follows CPython's [str.lower] on strings whose code points
    lie in U+0000..U+007F, U+0391..U+03A1, U+03A3..U+03A9 and
    U+03B1..U+03C9.  A capital sigma (U+03A3) becomes the final form U+03C2
    when it is preceded by a cased letter and not followed by one, characters
    that are case-ignorable being skipped on both sides; it becomes U+03C3
    otherwise.  Code points outside that range are left as they are, which
    is not claimed to be what Python does with them. *)
Module Lower.

Definition between (lo hi c : N) : bool := N.leb lo c && N.leb c hi.

Definition is_upper (c : N) : bool :=
  between 0x41 0x5A c || between 0x391 0x3A1 c || between 0x3A3 0x3A9 c.

Definition is_cased (c : N) : bool :=
  is_upper c || between 0x61 0x7A c || between 0x3B1 0x3C9 c.

Definition is_case_ignorable (c : N) : bool :=
  N.eqb c 0x27 || N.eqb c 0x2E || N.eqb c 0x3A || N.eqb c 0x5E || N.eqb c 0x60.

Fixpoint first_not_ignorable (s : str) : option N :=
  match s with
  | [] => None
  | c :: s' => if is_case_ignorable c then first_not_ignorable s' else Some c
  end.

(** [before] is the text left of the sigma, nearest character first. *)
Definition final_sigma (before after : str) : bool :=
  match first_not_ignorable before with
  | Some c => is_cased c
  | None => false
  end &&
  match first_not_ignorable after with
  | Some c => negb (is_cased c)
  | None => true
  end.

Definition lower_char (before : str) (c : N) (after : str) : N :=
  if N.eqb c 0x3A3 then (if final_sigma before after then 0x3C2 else 0x3C3)
  else if is_upper c then (c + 32)%N
  else c.

Fixpoint lower_from (before s : str) : str :=
  match s with
  | [] => []
  | c :: rest => lower_char before c rest :: lower_from (c :: before) rest
  end.

End Lower.

Definition py_lower (s : str) : str := Lower.lower_from [] s.

(** ** Insertion-ordered dictionaries with string keys *)

Definition dict (V : Type) := list (str * V).

Section Dict.
Variable V : Type.

Definition dict_keys (d : dict V) : list str := map fst d.

Definition dict_items (d : dict V) : list (str * V) := d.

Definition dict_len (d : dict V) : nat := List.length d.

Fixpoint dict_get (k : str) (d : dict V) : option V :=
  match d with
  | [] => None
  | (k', v) :: d' => if str_eqb k k' then Some v else dict_get k d'
  end.

(** [d.get(k, default)] *)
Definition dict_get_or (k : str) (default : V) (d : dict V) : V :=
  match dict_get k d with
  | Some v => v
  | None => default
  end.

(** [d[k] = v]: an existing key keeps its place, a new key goes last. *)
Fixpoint dict_set (k : str) (v : V) (d : dict V) : dict V :=
  match d with
  | [] => [(k, v)]
  | (k', v') :: d' =>
      if str_eqb k k' then (k', v) :: d' else (k', v') :: dict_set k v d'
  end.

Definition has_key (k : str) (d : dict V) : bool :=
  existsb (str_eqb k) (dict_keys d).

(** The keys of a dictionary are pairwise distinct. *)
Fixpoint dict_wfb (d : dict V) : bool :=
  match d with
  | [] => true
  | (k, _) :: d' => negb (has_key k d') && dict_wfb d'
  end.

Definition dict_wf (d : dict V) : Prop := dict_wfb d = true.

End Dict.

(** Truth value of a list or dict: [not x] is [is_empty x]. *)
Definition is_empty {A : Type} (l : list A) : bool :=
  match l with
  | [] => true
  | _ :: _ => false
  end.

(** ** Output *)

(** A computation that returns a value and the lines it printed. *)
Definition Out (A : Type) : Type := A * list str.

Definition ret {A : Type} (a : A) : Out A := (a, []).

Definition bind {A B : Type} (m : Out A) (k : A -> Out B) : Out B :=
  let (a, w) := m in
  let (b, w') := k a in
  (b, w ++ w').

Definition print (line : str) : Out unit := (tt, [line]).

Definition value {A : Type} (m : Out A) : A := fst m.

Definition printed {A : Type} (m : Out A) : list str := snd m.

Notation "m ;; k" := (bind m (fun _ => k))
  (at level 61, right associativity).

(** ** The filter configuration

    The configuration is a dictionary read with [.get(key, default)]: each
    of its three entries may be absent. *)
Record config := Config {
  ENABLED : option bool;
  CATEGORIES : option (list str);
  KEYWORDS : option (dict (list str))
}.

Definition get_or {A : Type} (o : option A) (default : A) : A :=
  match o with
  | Some a => a
  | None => default
  end.

(** ** The module *)

Section ContentFilter.

(** [str.lower] *)
Variable lower : str -> str.

(** The type of [title_data], the payload kept with each title. *)
Variable title_data : Type.

(** [content_filter_config.get("ENABLED", False)] *)
Definition enabled (content_filter_config : config) : bool :=
  get_or (ENABLED content_filter_config) false.

Definition categories_of (content_filter_config : config) : list str :=
  get_or (CATEGORIES content_filter_config) [].

Definition keywords_of (content_filter_config : config) : dict (list str) :=
  get_or (KEYWORDS content_filter_config) [].

(** The inner loop of the matcher: some keyword of the category, lowered,
    occurs in the lowered title. *)
Definition category_matches
    (title_lower : str) (keywords : dict (list str)) (category : str) : bool :=
  let category_keywords := dict_get_or category [] keywords in
  existsb (fun keyword => str_in (lower keyword) title_lower) category_keywords.

Definition matches_content_category
    (title : str) (content_filter_config : config) : bool :=
  if negb (enabled content_filter_config) then true
  else
    let categories := categories_of content_filter_config in
    let keywords := keywords_of content_filter_config in
    if is_empty categories || is_empty keywords then true
    else
      let title_lower := lower title in
      existsb (category_matches title_lower keywords) categories.

(** The summary line both filters print:
    [f"<label>{before} → {after} 条 (分类: {', '.join(categories)})"]. *)
Definition summary_line
    (label : str) (before after : nat) (categories : list str) : str :=
  label ++ str_of_nat before
    ++ [0x20; 0x2192; 0x20]%N ++ str_of_nat after
    ++ [0x20; 0x6761; 0x20; 0x28; 0x5206; 0x7c7b; 0x3a; 0x20]%N
    ++ join (of_ascii ", ") categories ++ [0x29]%N.

(** "内容分类过滤: " *)
Definition results_label : str :=
  [0x5185; 0x5bb9; 0x5206; 0x7c7b; 0x8fc7; 0x6ee4; 0x3a; 0x20]%N.

(** "RSS 内容分类过滤: " *)
Definition rss_label : str := of_ascii "RSS " ++ results_label.

(** *** [filter_results_by_category] *)

(** The loop over the titles of one source. *)
Definition keep_title (content_filter_config : config)
    (filtered_titles : dict title_data) (entry : str * title_data)
    : dict title_data :=
  let (title, data) := entry in
  if matches_content_category title content_filter_config
  then dict_set title data filtered_titles
  else filtered_titles.

Definition filter_titles (content_filter_config : config)
    (titles_data : dict title_data) : dict title_data :=
  fold_left (keep_title content_filter_config) (dict_items titles_data) [].

(** The variables the loop over the sources updates. *)
Record results_state := ResultsState {
  filtered_results : dict (dict title_data);
  total_before : nat;
  total_after : nat
}.

Definition results_step (content_filter_config : config)
    (st : results_state) (entry : str * dict title_data) : results_state :=
  let (source_id, titles_data) := entry in
  let before := total_before st + dict_len titles_data in
  let filtered_titles := filter_titles content_filter_config titles_data in
  if negb (is_empty filtered_titles)
  then {| filtered_results :=
            dict_set source_id filtered_titles (filtered_results st);
          total_before := before;
          total_after := total_after st + dict_len filtered_titles |}
  else {| filtered_results := filtered_results st;
          total_before := before;
          total_after := total_after st |}.

Definition results_loop (content_filter_config : config)
    (results : dict (dict title_data)) : results_state :=
  fold_left (results_step content_filter_config) (dict_items results)
    {| filtered_results := []; total_before := 0; total_after := 0 |}.

Definition filter_results_by_category
    (results : dict (dict title_data)) (content_filter_config : config)
    (quiet : bool) : Out (dict (dict title_data)) :=
  if negb (enabled content_filter_config) then ret results
  else
    let st := results_loop content_filter_config results in
    (if negb quiet
     then print (summary_line results_label (total_before st) (total_after st)
                   (categories_of content_filter_config))
     else ret tt) ;;
    ret (filtered_results st).

(** *** [filter_rss_items_by_category] *)

(** An RSS item is a dictionary of fields; [item.get("title", "")]. *)
Definition rss_item := dict str.

Definition title_of (item : rss_item) : str :=
  dict_get_or (of_ascii "title") [] item.

Definition keep_item (content_filter_config : config)
    (filtered_items : list rss_item) (item : rss_item) : list rss_item :=
  if matches_content_category (title_of item) content_filter_config
  then filtered_items ++ [item]
  else filtered_items.

Definition filter_rss_items_by_category
    (rss_items : list rss_item) (content_filter_config : config)
    (quiet : bool) : Out (list rss_item) :=
  if negb (enabled content_filter_config) then ret rss_items
  else if is_empty rss_items then ret rss_items
  else
    let filtered_items :=
      fold_left (keep_item content_filter_config) rss_items [] in
    (if negb quiet
     then print (summary_line rss_label (List.length rss_items)
                   (List.length filtered_items)
                   (categories_of content_filter_config))
     else ret tt) ;;
    ret filtered_items.

(** *** What the loops compute

    On dictionaries with distinct keys every [d[k] = v] of the loops adds a
    new key, so each loop is a filter; the facts below prove it. *)

Definition title_passes (content_filter_config : config)
    (entry : str * title_data) : bool :=
  matches_content_category (fst entry) content_filter_config.

Definition kept_titles (content_filter_config : config)
    (titles_data : dict title_data) : dict title_data :=
  filter (title_passes content_filter_config) titles_data.

Definition kept_source (content_filter_config : config)
    (entry : str * dict title_data) : list (str * dict title_data) :=
  let filtered_titles := kept_titles content_filter_config (snd entry) in
  if is_empty filtered_titles then [] else [(fst entry, filtered_titles)].

Definition kept_sources (content_filter_config : config)
    (results : dict (dict title_data)) : dict (dict title_data) :=
  flat_map (kept_source content_filter_config) results.

Definition item_passes (content_filter_config : config)
    (item : rss_item) : bool :=
  matches_content_category (title_of item) content_filter_config.

(** The number of titles of a result set. *)
Definition count_titles (results : dict (dict title_data)) : nat :=
  list_sum (map (fun entry => dict_len (snd entry)) results).

(** A result set is a dictionary of dictionaries. *)
Definition results_wfb (results : dict (dict title_data)) : bool :=
  dict_wfb results && forallb (fun entry => dict_wfb (snd entry)) results.

Definition results_wf (results : dict (dict title_data)) : Prop :=
  results_wfb results = true.

(** [results[source_id][title]] is [data]. *)
Definition has_title (results : dict (dict title_data))
    (source_id title : str) (data : title_data) : Prop :=
  exists titles_data,
    dict_get source_id results = Some titles_data /\
    dict_get title titles_data = Some data.

End ContentFilter.

(** ** Subsequences: what "the same relative order" means *)

Inductive Subseq {A : Type} : list A -> list A -> Prop :=
| Subseq_nil : Subseq [] []
| Subseq_skip x l1 l2 : Subseq l1 l2 -> Subseq l1 (x :: l2)
| Subseq_keep x l1 l2 : Subseq l1 l2 -> Subseq (x :: l1) (x :: l2).

(** ** The configurations and inputs of the specification's scenarios *)

(** An enabled, well-formed configuration: the filter is on and there are
    categories and keywords to filter with. *)
Definition well_formed (content_filter_config : config) : bool :=
  enabled content_filter_config
  && negb (is_empty (categories_of content_filter_config))
  && negb (is_empty (keywords_of content_filter_config)).

Definition finance_config : config :=
  {| ENABLED := Some true;
     CATEGORIES := Some [of_ascii "finance"];
     KEYWORDS :=
       Some [(of_ascii "finance", [of_ascii "stock"; of_ascii "market"])] |}.

Definition tech_config : config :=
  {| ENABLED := Some true;
     CATEGORIES := Some [of_ascii "tech"];
     KEYWORDS := Some [(of_ascii "tech", [of_ascii "AI"])] |}.

Definition disabled_config : config :=
  {| ENABLED := Some false;
     CATEGORIES := Some [of_ascii "finance"];
     KEYWORDS := Some [(of_ascii "finance", [of_ascii "stock"])] |}.

(** Enabled, with categories but no keywords. *)
Definition incomplete_config : config :=
  {| ENABLED := Some true;
     CATEGORIES := Some [of_ascii "finance"];
     KEYWORDS := Some [] |}.

(** A category whose only keyword is the empty string. *)
Definition empty_keyword_config : config :=
  {| ENABLED := Some true;
     CATEGORIES := Some [of_ascii "any"];
     KEYWORDS := Some [(of_ascii "any", [[]])] |}.

(** "ΑΣ", and a category whose only keyword it is. *)
Definition sigma_keyword : str := [0x391; 0x3A3]%N.

Definition sigma_config : config :=
  {| ENABLED := Some true;
     CATEGORIES := Some [of_ascii "greek"];
     KEYWORDS := Some [(of_ascii "greek", [sigma_keyword])] |}.

Definition item_titled (t : string) : rss_item :=
  [(of_ascii "title", of_ascii t)].

Definition scenario_a_items : list rss_item :=
  [item_titled "Stock prices surge"; item_titled "Local weather today";
   item_titled "Market closes flat"].

(** The payload [{}] of the scenarios is the empty dictionary. *)
Definition scenario_b_results : dict (dict (dict str)) :=
  [(of_ascii "src1",
      [(of_ascii "A stock tip", []); (of_ascii "Weather forecast", [])]);
   (of_ascii "src2", [(of_ascii "Sports update", [])])].

(** Scenario B's output, [{"src1": {"A stock tip": {}}}], and the line it
    prints, "内容分类过滤: 3 → 1 条 (分类: finance)". *)
Definition scenario_b_output : dict (dict (dict str)) :=
  [(of_ascii "src1", [(of_ascii "A stock tip", [])])].

Definition scenario_b_line : str :=
  [0x5185; 0x5bb9; 0x5206; 0x7c7b; 0x8fc7; 0x6ee4; 0x3a; 0x20]%N
    ++ of_ascii "3" ++ [0x20; 0x2192; 0x20]%N ++ of_ascii "1"
    ++ [0x20; 0x6761; 0x20; 0x28; 0x5206; 0x7c7b; 0x3a; 0x20]%N
    ++ of_ascii "finance)".

(** "ΑΣΑ": the keyword of [sigma_config] followed by another letter. *)
Definition sigma_title : str := sigma_keyword ++ [0x391]%N.

(** Scenario A's output and the line it prints,
    "RSS 内容分类过滤: 3 → 2 条 (分类: finance)". *)
Definition scenario_a_output : list rss_item :=
  [item_titled "Stock prices surge"; item_titled "Market closes flat"].

Definition scenario_a_line : str :=
  of_ascii "RSS "
    ++ [0x5185; 0x5bb9; 0x5206; 0x7c7b; 0x8fc7; 0x6ee4; 0x3a; 0x20]%N
    ++ of_ascii "3" ++ [0x20; 0x2192; 0x20]%N ++ of_ascii "2"
    ++ [0x20; 0x6761; 0x20; 0x28; 0x5206; 0x7c7b; 0x3a; 0x20]%N
    ++ of_ascii "finance)".

(** Scenario D: the category "sports" is listed and has no keywords. *)
Definition scenario_d_config : config :=
  {| ENABLED := Some true;
     CATEGORIES := Some [of_ascii "finance"; of_ascii "sports"];
     KEYWORDS := Some [(of_ascii "finance", [of_ascii "stock"])] |}.

(** The only listed category, "sports", has no entry among the keywords. *)
Definition unlisted_config : config :=
  {| ENABLED := Some true;
     CATEGORIES := Some [of_ascii "sports"];
     KEYWORDS := Some [(of_ascii "finance", [of_ascii "stock"])] |}.

(** [finance_config] with one more category and one more keyword. *)
Definition wider_config : config :=
  {| ENABLED := Some true;
     CATEGORIES := Some [of_ascii "finance"; of_ascii "tech"];
     KEYWORDS :=
       Some [(of_ascii "finance",
                [of_ascii "stock"; of_ascii "market"; of_ascii "bank"]);
             (of_ascii "tech", [of_ascii "AI"])] |}.

(** An item that has no "title" field. *)
Definition untitled_item : rss_item :=
  [(of_ascii "link", of_ascii "https://example.org/1")].

(** Text made of the characters on which [py_lower] follows [str.lower]. *)
Definition in_lower_range (s : str) : bool :=
  forallb
    (fun c =>
       Lower.between 0 0x7F c || Lower.between 0x391 0x3A1 c
       || Lower.between 0x3A3 0x3A9 c || Lower.between 0x3B1 0x3C9 c)
    s.

(** Text with a capital sigma, the one character [str.lower] lowers by its
    neighbours. *)
Definition has_capital_sigma (s : str) : bool := existsb (N.eqb 0x3A3) s.

(** A result set with one source that has no title. *)
Definition empty_source_results : dict (dict (dict str)) :=
  [(of_ascii "src1", [])].


(** ** Facts about strings *)

Lemma str_eqb_eq (a b : str) : str_eqb a b = true <-> a = b.
Proof.
  revert b; induction a as [|x a IH]; intros [|y b]; simpl;
    try (split; [discriminate | congruence]); try tauto.
  rewrite andb_true_iff, N.eqb_eq, IH.
  split; [intros [-> ->]; reflexivity | intros H; injection H; auto].
Qed.

Lemma str_eqb_refl (a : str) : str_eqb a a = true.
Proof. apply str_eqb_eq; reflexivity. Qed.

Lemma str_eqb_neq (a b : str) : str_eqb a b = false <-> a <> b.
Proof.
  rewrite <- str_eqb_eq. destruct (str_eqb a b); split; congruence.
Qed.

Lemma startswith_spec (sub s : str) :
  startswith sub s = true <-> exists post, s = sub ++ post.
Proof.
  revert s; induction sub as [|x sub IH]; intros s; simpl.
  - split; [intros _; exists s; reflexivity | reflexivity].
  - destruct s as [|y s].
    + split; [discriminate | intros [post H]; discriminate H].
    + rewrite andb_true_iff, N.eqb_eq, IH. split.
      * intros [-> [post ->]]. exists post. reflexivity.
      * intros [post H]. injection H as -> ->. split; [reflexivity | eauto].
Qed.

Lemma str_in_spec (sub s : str) :
  str_in sub s = true <-> exists pre post, s = pre ++ sub ++ post.
Proof.
  induction s as [|c s IH]; simpl; rewrite orb_true_iff, startswith_spec.
  - split.
    + intros [[post H] | H]; [exists [], post; exact H | discriminate H].
    + intros [pre [post H]]. left. destruct pre; [eauto | discriminate H].
  - rewrite IH. split.
    + intros [[post H] | [pre [post H]]].
      * exists [], post. exact H.
      * exists (c :: pre), post. simpl. rewrite H. reflexivity.
    + intros [[|c' pre] [post H]].
      * left. exists post. exact H.
      * right. injection H as _ H. eauto.
Qed.

(** The empty string occurs in every string. *)
Lemma str_in_empty (s : str) : str_in [] s = true.
Proof. destruct s; reflexivity. Qed.

(** ** Facts about dictionaries *)

Section DictFacts.

Variable V : Type.
Implicit Types (d : dict V) (k : str) (v : V).

Lemma has_key_In k d : has_key k d = true <-> In k (dict_keys d).
Proof.
  unfold has_key. rewrite existsb_exists. split.
  - intros [k' [Hin Heq]]. apply str_eqb_eq in Heq. subst. exact Hin.
  - intros Hin. exists k. split; [exact Hin | apply str_eqb_refl].
Qed.

Lemma has_key_false k d : has_key k d = false <-> ~ In k (dict_keys d).
Proof.
  rewrite <- has_key_In. destruct (has_key k d); split; congruence.
Qed.

Lemma dict_wf_NoDup d : dict_wf d <-> NoDup (dict_keys d).
Proof.
  unfold dict_wf. induction d as [|[k v] d IH]; simpl.
  - split; [constructor | reflexivity].
  - rewrite andb_true_iff, negb_true_iff, has_key_false, IH. split.
    + intros [Hk Hd]. constructor; assumption.
    + intros H. apply NoDup_cons_iff in H. exact H.
Qed.

Lemma dict_keys_app d1 d2 : dict_keys (d1 ++ d2) = dict_keys d1 ++ dict_keys d2.
Proof. apply map_app. Qed.

(** Setting a key the dictionary does not have appends the entry. *)
Lemma dict_set_new k v d :
  ~ In k (dict_keys d) -> dict_set k v d = d ++ [(k, v)].
Proof.
  induction d as [|[k' v'] d IH]; simpl; intros Hk; [reflexivity|].
  destruct (str_eqb k k') eqn:E.
  - apply str_eqb_eq in E. subst. tauto.
  - rewrite IH by tauto. reflexivity.
Qed.

Lemma dict_get_In k v d : dict_get k d = Some v -> In (k, v) d.
Proof.
  induction d as [|[k' v'] d IH]; simpl; [discriminate|].
  destruct (str_eqb k k') eqn:E.
  - apply str_eqb_eq in E. subst. intros H. injection H as ->. auto.
  - auto.
Qed.

Lemma In_dict_get k v d : dict_wf d -> In (k, v) d -> dict_get k d = Some v.
Proof.
  rewrite dict_wf_NoDup.
  induction d as [|[k' v'] d IH]; simpl; intros Hwf Hin; [tauto|].
  apply NoDup_cons_iff in Hwf as [Hk Hd].
  destruct Hin as [H | H].
  - injection H as -> ->. rewrite str_eqb_refl. reflexivity.
  - destruct (str_eqb k k') eqn:E.
    + apply str_eqb_eq in E. subst. exfalso. apply Hk.
      change k' with (fst (k', v)). apply in_map. exact H.
    + auto.
Qed.

Lemma In_keys_item k d : In k (dict_keys d) <-> exists v, In (k, v) d.
Proof.
  unfold dict_keys. rewrite in_map_iff. split.
  - intros [[k' v] [Heq Hin]]. simpl in Heq. subst. eauto.
  - intros [v Hin]. exists (k, v). auto.
Qed.

End DictFacts.

(** ** Facts about subsequences *)

#[local] Hint Constructors Subseq : core.

Lemma Subseq_refl {A : Type} (l : list A) : Subseq l l.
Proof. induction l; auto. Qed.

Lemma Subseq_filter {A : Type} (p : A -> bool) (l : list A) :
  Subseq (filter p l) l.
Proof. induction l as [|x l IH]; simpl; [|destruct (p x)]; auto. Qed.

Lemma Subseq_map {A B : Type} (f : A -> B) (l1 l2 : list A) :
  Subseq l1 l2 -> Subseq (map f l1) (map f l2).
Proof. induction 1; simpl; auto. Qed.

Lemma Subseq_In {A : Type} (l1 l2 : list A) x :
  Subseq l1 l2 -> In x l1 -> In x l2.
Proof. induction 1; simpl; intuition. Qed.

Lemma Subseq_NoDup {A : Type} (l1 l2 : list A) :
  Subseq l1 l2 -> NoDup l2 -> NoDup l1.
Proof.
  induction 1 as [| z l1 l2 H IH | z l1 l2 H IH]; intros Hnd; auto;
    apply NoDup_cons_iff in Hnd as [Hz Hnd]; auto.
  constructor; auto. intros Hin. apply Hz. eapply Subseq_In; eauto.
Qed.

(** Two elements that both survive keep their order: if [x] comes before [y]
    in the subsequence, it does in the whole list. *)
Lemma Subseq_before {A : Type} (l1 l2 : list A) x y pre mid post :
  Subseq l1 l2 -> l1 = pre ++ x :: mid ++ y :: post ->
  exists pre' mid' post', l2 = pre' ++ x :: mid' ++ y :: post'.
Proof.
  intros H; revert pre mid post.
  induction H as [| z l1 l2 H IH | z l1 l2 H IH]; intros pre mid post E.
  - destruct pre; discriminate E.
  - destruct (IH _ _ _ E) as (pre' & mid' & post' & ->).
    exists (z :: pre'), mid', post'. reflexivity.
  - destruct pre as [|p pre]; simpl in E; injection E as -> E.
    + assert (Hy : In y l2).
      { eapply Subseq_In; [exact H|]. rewrite E. apply in_or_app. simpl. auto. }
      apply in_split in Hy. destruct Hy as (mid' & post' & ->).
      exists [], mid', post'. reflexivity.
    + destruct (IH _ _ _ E) as (pre' & mid' & post' & ->).
      exists (p :: pre'), mid', post'. reflexivity.
Qed.

(** ** The loops are filters *)

Section LoopFacts.

Variable lower : str -> str.
Variable title_data : Type.
Variable cfg : config.

Lemma keep_title_fold (titles acc : dict title_data) :
  NoDup (dict_keys (acc ++ titles)) ->
  fold_left (keep_title lower cfg) titles acc = acc ++ kept_titles lower cfg titles.
Proof.
  revert acc; induction titles as [|[title data] titles IH]; intros acc Hnd.
  - simpl. rewrite app_nil_r. reflexivity.
  - simpl. unfold title_passes at 1. simpl.
    assert (Hnew : ~ In title (dict_keys acc)).
    { rewrite dict_keys_app in Hnd. simpl in Hnd.
      apply NoDup_remove_2 in Hnd. intros Hin. apply Hnd.
      apply in_or_app. left. exact Hin. }
    destruct (matches_content_category lower title cfg).
    + rewrite dict_set_new by exact Hnew. rewrite IH.
      * rewrite <- app_assoc. reflexivity.
      * rewrite <- app_assoc. exact Hnd.
    + apply IH. rewrite dict_keys_app in *. simpl in Hnd.
      apply NoDup_remove_1 in Hnd. exact Hnd.
Qed.

Lemma filter_titles_spec (titles : dict title_data) :
  dict_wf titles -> filter_titles lower cfg titles = kept_titles lower cfg titles.
Proof.
  intros Hwf. unfold filter_titles, dict_items.
  apply keep_title_fold. simpl. apply dict_wf_NoDup. exact Hwf.
Qed.

Lemma kept_titles_Subseq (titles : dict title_data) :
  Subseq (kept_titles lower cfg titles) titles.
Proof. apply Subseq_filter. Qed.

Lemma kept_titles_wf (titles : dict title_data) :
  dict_wf titles -> dict_wf (kept_titles lower cfg titles).
Proof.
  rewrite !dict_wf_NoDup. apply Subseq_NoDup, Subseq_map, kept_titles_Subseq.
Qed.

Lemma kept_titles_idem (titles : dict title_data) :
  kept_titles lower cfg (kept_titles lower cfg titles) = kept_titles lower cfg titles.
Proof.
  unfold kept_titles.
  induction titles as [|e titles IH]; simpl; [reflexivity|].
  destruct (title_passes lower cfg e) eqn:E; simpl; [rewrite E, IH|]; auto.
Qed.

Lemma kept_sources_keys_Subseq (results : dict (dict title_data)) :
  Subseq (dict_keys (kept_sources lower cfg results)) (dict_keys results).
Proof.
  induction results as [|[sid titles] results IH]; simpl; [constructor|].
  unfold kept_source; simpl.
  destruct (is_empty (kept_titles lower cfg titles)); simpl; constructor; exact IH.
Qed.

(** The entries of the filtered result set: the sources with a title that
    passes, each with the titles that pass. *)
Lemma In_kept_sources sid kept (results : dict (dict title_data)) :
  In (sid, kept) (kept_sources lower cfg results) <->
  exists titles,
    In (sid, titles) results /\ kept = kept_titles lower cfg titles /\ kept <> [].
Proof.
  unfold kept_sources. rewrite in_flat_map. split.
  - intros [[sid' titles] [Hin Hk]]. unfold kept_source in Hk. simpl in Hk.
    destruct (kept_titles lower cfg titles) eqn:E; simpl in Hk; [tauto|].
    destruct Hk as [Hk | []]. injection Hk as -> <-.
    exists titles. rewrite E. repeat split; [exact Hin | discriminate].
  - intros [titles [Hin [-> Hne]]]. exists (sid, titles).
    split; [exact Hin|]. unfold kept_source. simpl.
    destruct (kept_titles lower cfg titles); [tauto | left; reflexivity].
Qed.

Lemma count_titles_cons sid (titles : dict title_data) results :
  count_titles ((sid, titles) :: results)
  = dict_len titles + count_titles results.
Proof. reflexivity. Qed.

Lemma kept_sources_cons sid (titles : dict title_data) results :
  kept_sources lower cfg ((sid, titles) :: results)
  = (if is_empty (kept_titles lower cfg titles) then []
     else [(sid, kept_titles lower cfg titles)])
    ++ kept_sources lower cfg results.
Proof. reflexivity. Qed.

Lemma results_step_fold (results : dict (dict title_data)) acc before after :
  NoDup (dict_keys results) ->
  (forall k, In k (dict_keys acc) -> ~ In k (dict_keys results)) ->
  Forall (fun entry => dict_wf (snd entry)) results ->
  fold_left (results_step lower cfg) results
    {| filtered_results := acc; total_before := before; total_after := after |}
  = {| filtered_results := acc ++ kept_sources lower cfg results;
       total_before := before + count_titles results;
       total_after := after + count_titles (kept_sources lower cfg results) |}.
Proof.
  revert acc before after.
  induction results as [|[sid titles] results IH];
    intros acc before after Hnd Hacc Hwf.
  - cbn. rewrite app_nil_r, !Nat.add_0_r. reflexivity.
  - change (dict_keys ((sid, titles) :: results))
      with (sid :: dict_keys results) in *.
    apply NoDup_cons_iff in Hnd as [Hsid Hnd].
    apply Forall_cons_iff in Hwf as [Hwft Hwf]. cbn [snd] in Hwft.
    rewrite kept_sources_cons, count_titles_cons.
    cbn [fold_left results_step filtered_results total_before total_after].
    rewrite (filter_titles_spec Hwft).
    destruct (kept_titles lower cfg titles) as [|e kept] eqn:E;
      cbn [is_empty negb app].
    + rewrite IH; auto.
      * rewrite Nat.add_assoc. reflexivity.
      * intros k Hk Hin. apply (Hacc k Hk). right. exact Hin.
    + rewrite dict_set_new.
      * rewrite IH; auto.
        -- rewrite <- app_assoc, count_titles_cons, !Nat.add_assoc.
           reflexivity.
        -- intros k Hk Hin. rewrite dict_keys_app in Hk.
           apply in_app_or in Hk. destruct Hk as [Hk | [<- | []]].
           ++ apply (Hacc k Hk). right. exact Hin.
           ++ exact (Hsid Hin).
      * intros Hin. apply (Hacc sid Hin). left. reflexivity.
Qed.

Lemma results_wf_split (results : dict (dict title_data)) :
  results_wf results <->
  NoDup (dict_keys results) /\
  Forall (fun entry => dict_wf (snd entry)) results.
Proof.
  unfold results_wf, results_wfb.
  rewrite andb_true_iff, forallb_forall, Forall_forall.
  fold (dict_wf results). rewrite dict_wf_NoDup. reflexivity.
Qed.

(** The state of the loop over the sources when it ends. *)
Lemma results_loop_spec (results : dict (dict title_data)) :
  results_wf results ->
  results_loop lower cfg results
  = {| filtered_results := kept_sources lower cfg results;
       total_before := count_titles results;
       total_after := count_titles (kept_sources lower cfg results) |}.
Proof.
  intros Hwf. apply results_wf_split in Hwf as [Hnd Hwf].
  unfold results_loop, dict_items.
  rewrite results_step_fold; auto.
Qed.

Lemma kept_sources_wf (results : dict (dict title_data)) :
  results_wf results -> results_wf (kept_sources lower cfg results).
Proof.
  rewrite !results_wf_split. intros [Hnd Hwf]. split.
  - eapply Subseq_NoDup; [apply kept_sources_keys_Subseq | exact Hnd].
  - rewrite Forall_forall in *. intros [sid kept] Hin.
    apply In_kept_sources in Hin as (titles & Hin & -> & _).
    apply kept_titles_wf. exact (Hwf _ Hin).
Qed.

Lemma kept_sources_idem (results : dict (dict title_data)) :
  kept_sources lower cfg (kept_sources lower cfg results)
  = kept_sources lower cfg results.
Proof.
  induction results as [|[sid titles] results IH]; [reflexivity|].
  rewrite kept_sources_cons.
  destruct (kept_titles lower cfg titles) as [|e kept] eqn:E;
    cbn [is_empty app]; [exact IH|].
  rewrite kept_sources_cons, <- E, kept_titles_idem, E, IH. reflexivity.
Qed.

(** The loop over the items. *)
Lemma keep_item_fold (items acc : list rss_item) :
  fold_left (keep_item lower cfg) items acc
  = acc ++ filter (item_passes lower cfg) items.
Proof.
  revert acc; induction items as [|item items IH]; intros acc; simpl.
  - rewrite app_nil_r. reflexivity.
  - rewrite IH. unfold keep_item, item_passes.
    destruct (matches_content_category lower (title_of item) cfg);
      [rewrite <- app_assoc|]; reflexivity.
Qed.

(** The value of each filter. *)
Lemma filter_results_value (results : dict (dict title_data)) quiet :
  enabled cfg = true -> results_wf results ->
  value (filter_results_by_category lower results cfg quiet)
  = kept_sources lower cfg results.
Proof.
  intros Hen Hwf. unfold filter_results_by_category.
  rewrite Hen, (results_loop_spec Hwf). destruct quiet; reflexivity.
Qed.

Lemma filter_rss_items_value (items : list rss_item) quiet :
  enabled cfg = true ->
  value (filter_rss_items_by_category lower items cfg quiet)
  = filter (item_passes lower cfg) items.
Proof.
  intros Hen. unfold filter_rss_items_by_category. rewrite Hen.
  destruct items as [|item items]; [reflexivity|].
  cbn [negb is_empty]. rewrite keep_item_fold. destruct quiet; reflexivity.
Qed.

End LoopFacts.

(** ** The matcher *)

Section MatcherFacts.

Variable lower : str -> str.
Variable cfg : config.

Lemma well_formed_split :
  well_formed cfg = true <->
  enabled cfg = true /\ categories_of cfg <> [] /\ keywords_of cfg <> [].
Proof.
  unfold well_formed. rewrite !andb_true_iff, !negb_true_iff.
  destruct (categories_of cfg), (keywords_of cfg); simpl;
    intuition (discriminate || congruence).
Qed.

Lemma matches_disabled title :
  enabled cfg = false -> matches_content_category lower title cfg = true.
Proof. intros H. unfold matches_content_category. rewrite H. reflexivity. Qed.

Lemma matches_incomplete title :
  categories_of cfg = [] \/ keywords_of cfg = [] ->
  matches_content_category lower title cfg = true.
Proof.
  intros H. unfold matches_content_category.
  destruct (enabled cfg); [|reflexivity]. cbn [negb].
  destruct H as [-> | ->]; [reflexivity|].
  rewrite orb_true_r. reflexivity.
Qed.

(** With an enabled, complete configuration the matcher is the search for a
    keyword of a listed category whose lowered form occurs in the lowered
    title. *)
Lemma matches_well_formed title :
  well_formed cfg = true ->
  (matches_content_category lower title cfg = true <->
   exists category keyword,
     In category (categories_of cfg) /\
     In keyword (dict_get_or category [] (keywords_of cfg)) /\
     str_in (lower keyword) (lower title) = true).
Proof.
  intros Hwf. apply well_formed_split in Hwf as (Hen & Hc & Hk).
  unfold matches_content_category. rewrite Hen. cbn [negb].
  destruct (categories_of cfg) as [|c cs] eqn:Ec; [congruence|].
  destruct (keywords_of cfg) as [|kw kws] eqn:Ek; [congruence|].
  cbn [is_empty orb]. rewrite existsb_exists. split.
  - intros [category [Hin Hm]]. unfold category_matches in Hm.
    apply existsb_exists in Hm as [keyword [Hkin Hs]]. eauto.
  - intros (category & keyword & Hin & Hkin & Hs).
    exists category. split; [exact Hin|].
    unfold category_matches. apply existsb_exists. eauto.
Qed.

Lemma matches_by_keyword title category keyword :
  In category (categories_of cfg) ->
  In keyword (dict_get_or category [] (keywords_of cfg)) ->
  str_in (lower keyword) (lower title) = true ->
  matches_content_category lower title cfg = true.
Proof.
  intros Hc Hk Hs.
  destruct (enabled cfg) eqn:Hen; [|apply matches_disabled; exact Hen].
  destruct (categories_of cfg) as [|c cs] eqn:Ec;
    [apply matches_incomplete; auto|].
  destruct (keywords_of cfg) as [|kw kws] eqn:Ek;
    [apply matches_incomplete; auto|].
  apply matches_well_formed.
  - apply well_formed_split. rewrite Ec, Ek.
    repeat split; [exact Hen | discriminate | discriminate].
  - exists category, keyword. rewrite Ec, Ek. auto.
Qed.

End MatcherFacts.

(** Scenarios A and D of the specification. *)
Example scenario_a :
  filter_rss_items_by_category py_lower scenario_a_items finance_config false
  = (scenario_a_output, [scenario_a_line]).
Proof. reflexivity. Qed.

Example scenario_d :
  matches_content_category py_lower (of_ascii "Sports update")
    scenario_d_config = false /\
  matches_content_category py_lower (of_ascii "Stock update")
    scenario_d_config = true.
Proof. split; reflexivity. Qed.

(** ** [py_lower] on text without capital sigma *)

Lemma lower_from_no_sigma (before s : str) :
  ~ In 0x3A3%N s ->
  Lower.lower_from before s
  = map (fun c => if Lower.is_upper c then (c + 32)%N else c) s.
Proof.
  revert before; induction s as [|c s IH]; intros before Hs; [reflexivity|].
  cbn [Lower.lower_from map]. rewrite IH by (intros H; apply Hs; right; exact H).
  unfold Lower.lower_char. destruct (N.eqb c 0x3A3) eqn:E; [|reflexivity].
  apply N.eqb_eq in E. exfalso. apply Hs. left. exact E.
Qed.

Lemma py_lower_app_no_sigma (a b : str) :
  ~ In 0x3A3%N (a ++ b) -> py_lower (a ++ b) = py_lower a ++ py_lower b.
Proof.
  intros H. unfold py_lower. rewrite !lower_from_no_sigma.
  - apply map_app.
  - intros Hb. apply H, in_or_app. right. exact Hb.
  - intros Ha. apply H, in_or_app. left. exact Ha.
  - exact H.
Qed.

(** ** Pass-through *)

Lemma filter_all_true {A : Type} (p : A -> bool) (l : list A) :
  (forall x, In x l -> p x = true) -> filter p l = l.
Proof.
  induction l as [|x l IH]; intros H; simpl; [reflexivity|].
  rewrite (H x) by (left; reflexivity).
  rewrite IH by (intros y Hy; apply H; right; exact Hy). reflexivity.
Qed.

(** When every title passes, only the sources without a title go. *)
Lemma kept_sources_all_pass lower title_data cfg
    (results : dict (dict title_data)) :
  (forall title, matches_content_category lower title cfg = true) ->
  kept_sources lower cfg results
  = filter (fun entry => negb (is_empty (snd entry))) results.
Proof.
  intros Hall. induction results as [|[sid titles] results IH]; [reflexivity|].
  rewrite kept_sources_cons. unfold kept_titles.
  rewrite filter_all_true by (intros e _; apply Hall).
  cbn [filter snd]. rewrite IH. destruct titles; reflexivity.
Qed.

(** C1: when the configuration's enabled flag is false or absent, the
    matcher returns true for every title, and both filters return their
    input as it is, for every input (and print nothing). *)
Theorem disabled_pass_through
    (lower : str -> str) (title_data : Type) (cfg : config) :
  ENABLED cfg = Some false \/ ENABLED cfg = None ->
  (forall title, matches_content_category lower title cfg = true) /\
  (forall (results : dict (dict title_data)) quiet,
     filter_results_by_category lower results cfg quiet = (results, [])) /\
  (forall items quiet,
     filter_rss_items_by_category lower items cfg quiet = (items, [])).
Proof.
  intros H.
  assert (Hen : enabled cfg = false).
  { unfold enabled. destruct H as [-> | ->]; reflexivity. }
  repeat split; intros.
  - apply matches_disabled. exact Hen.
  - unfold filter_results_by_category. rewrite Hen. reflexivity.
  - unfold filter_rss_items_by_category. rewrite Hen. reflexivity.
Qed.

Lemma disabled_pass_through_witness :
  (ENABLED disabled_config = Some false \/ ENABLED disabled_config = None) /\
  matches_content_category py_lower (of_ascii "Sports update") disabled_config
  = true /\
  filter_results_by_category py_lower scenario_b_results disabled_config false
  = (scenario_b_results, []) /\
  filter_rss_items_by_category py_lower scenario_a_items disabled_config false
  = (scenario_a_items, []).
Proof.
  assert (H : ENABLED disabled_config = Some false
              \/ ENABLED disabled_config = None) by (left; reflexivity).
  destruct (@disabled_pass_through py_lower (dict str) disabled_config H)
    as (Hm & Hr & Hi).
  split; [exact H|]. split; [apply Hm|]. split; [apply Hr | apply Hi].
Defined.

(** C2, as the specification states it, fails: with an enabled
    configuration that has no keywords, a result set with a source without
    titles does not come back as it was. *)
Lemma fail_open_drops_empty_source :
  enabled incomplete_config = true /\
  keywords_of incomplete_config = [] /\
  results_wf empty_source_results /\
  value (filter_results_by_category py_lower empty_source_results
           incomplete_config true)
  <> empty_source_results.
Proof.
  split; [reflexivity|]. split; [reflexivity|]. split; [reflexivity|].
  discriminate.
Qed.

(** C2 (amended): for every enabled configuration without categories or
    without keywords, the matcher returns true for every title, the item
    filter returns its input, and the result-set filter returns its input
    without the sources that have no title: the input itself when every
    source has a title. *)
Theorem fail_open_incomplete_config
    (lower : str -> str) (title_data : Type) (cfg : config) :
  enabled cfg = true ->
  categories_of cfg = [] \/ keywords_of cfg = [] ->
  (forall title, matches_content_category lower title cfg = true) /\
  (forall items quiet,
     value (filter_rss_items_by_category lower items cfg quiet) = items) /\
  (forall (results : dict (dict title_data)) quiet,
     results_wf results ->
     value (filter_results_by_category lower results cfg quiet)
     = filter (fun entry => negb (is_empty (snd entry))) results) /\
  (forall (results : dict (dict title_data)) quiet,
     results_wf results ->
     (forall source_id titles, In (source_id, titles) results -> titles <> []) ->
     value (filter_results_by_category lower results cfg quiet) = results).
Proof.
  intros Hen Hinc.
  assert (Hall : forall title, matches_content_category lower title cfg = true)
    by (intros; apply matches_incomplete; exact Hinc).
  split; [exact Hall|]. split; [|split].
  - intros items quiet. rewrite filter_rss_items_value by exact Hen.
    apply filter_all_true. intros item _. apply Hall.
  - intros results quiet Hwf.
    rewrite filter_results_value by assumption.
    apply kept_sources_all_pass. exact Hall.
  - intros results quiet Hwf Hne.
    rewrite filter_results_value by assumption.
    rewrite kept_sources_all_pass by exact Hall.
    apply filter_all_true. intros [sid titles] Hin. cbn [snd].
    specialize (Hne sid titles Hin). destruct titles; [congruence|reflexivity].
Qed.

Lemma fail_open_incomplete_config_witness :
  enabled incomplete_config = true /\
  (categories_of incomplete_config = [] \/ keywords_of incomplete_config = []) /\
  matches_content_category py_lower (of_ascii "Sports update") incomplete_config
  = true /\
  value (filter_rss_items_by_category py_lower scenario_a_items
           incomplete_config false) = scenario_a_items /\
  value (filter_results_by_category py_lower scenario_b_results
           incomplete_config false) = scenario_b_results.
Proof.
  assert (Hen : enabled incomplete_config = true) by reflexivity.
  assert (Hinc : categories_of incomplete_config = []
                 \/ keywords_of incomplete_config = []) by (right; reflexivity).
  destruct (@fail_open_incomplete_config py_lower (dict str)
              incomplete_config Hen Hinc)
    as (Hm & Hi & _ & Hr).
  split; [exact Hen|]. split; [exact Hinc|]. split; [apply Hm|].
  split; [apply Hi|].
  apply Hr; [reflexivity|].
  intros sid titles Hin.
  repeat (destruct Hin as [Hin | Hin];
          [injection Hin as <- <-; discriminate|]).
  destruct Hin.
Defined.

(** ** Keywords of length zero *)

(** C3, as the specification states it, fails: the only keyword of this
    enabled, complete configuration is the empty string, and the empty
    title and every other title match, through no keyword that is not
    empty. *)
Lemma empty_keyword_matches :
  well_formed empty_keyword_config = true /\
  matches_content_category py_lower [] empty_keyword_config = true /\
  matches_content_category py_lower (of_ascii "Sports update")
    empty_keyword_config = true /\
  ~ (exists category keyword,
       In category (categories_of empty_keyword_config) /\
       In keyword
         (dict_get_or category [] (keywords_of empty_keyword_config)) /\
       keyword <> []).
Proof.
  split; [reflexivity|]. split; [reflexivity|]. split; [reflexivity|].
  intros (category & keyword & Hc & Hk & Hne).
  destruct Hc as [<- | []].
  destruct Hk as [<- | []].
  apply Hne. reflexivity.
Qed.

(** C3 (amended): for every title and every enabled configuration with
    categories and keywords, the matcher returns true exactly when some
    keyword of a listed category, lowered, occurs in the lowered title.
    Keywords of length zero are not skipped: a keyword whose lowered form is
    empty makes every title match, the empty title too. *)
Theorem keyword_substring_matches (lower : str -> str) (cfg : config) :
  well_formed cfg = true ->
  (forall title,
     matches_content_category lower title cfg = true <->
     exists category keyword,
       In category (categories_of cfg) /\
       In keyword (dict_get_or category [] (keywords_of cfg)) /\
       exists before after, lower title = before ++ lower keyword ++ after) /\
  (forall category keyword,
     In category (categories_of cfg) ->
     In keyword (dict_get_or category [] (keywords_of cfg)) ->
     lower keyword = [] ->
     forall title, matches_content_category lower title cfg = true).
Proof.
  intros Hwf. split.
  - intros title. rewrite matches_well_formed by exact Hwf.
    split; intros (category & keyword & Hc & Hk & Hs);
      exists category, keyword; (split; [exact Hc|]); (split; [exact Hk|]);
      apply str_in_spec; exact Hs.
  - intros category keyword Hc Hk He title.
    apply (@matches_by_keyword lower cfg title category keyword Hc Hk).
    rewrite He. apply str_in_empty.
Qed.

Lemma keyword_substring_matches_witness :
  well_formed empty_keyword_config = true /\
  forall title,
    matches_content_category py_lower title empty_keyword_config = true.
Proof.
  assert (Hwf : well_formed empty_keyword_config = true) by reflexivity.
  split; [exact Hwf|].
  apply (proj2 (@keyword_substring_matches py_lower empty_keyword_config Hwf)
           (of_ascii "any") []).
  - left. reflexivity.
  - left. reflexivity.
  - reflexivity.
Defined.

(** ** Which sources and titles are kept *)

(** C4: for every configuration whose enabled flag is true, also one that
    lets every title pass, the result-set filter leaves out every source
    whose titles are an empty dictionary; so there is a result set that
    does not come back as it was although none of its titles is rejected. *)
Theorem empty_sources_omitted
    (lower : str -> str) (title_data : Type) (cfg : config) :
  enabled cfg = true ->
  (forall (results : dict (dict title_data)) quiet source_id,
     results_wf results ->
     dict_get source_id results = Some [] ->
     dict_get source_id
       (value (filter_results_by_category lower results cfg quiet)) = None) /\
  (exists results : dict (dict title_data),
     results_wf results /\
     (forall source_id titles title,
        In (source_id, titles) results -> In title (dict_keys titles) ->
        matches_content_category lower title cfg = true) /\
     forall quiet,
       value (filter_results_by_category lower results cfg quiet) <> results).
Proof.
  intros Hen. split.
  - intros results quiet sid Hwf Hget.
    rewrite filter_results_value by assumption.
    destruct (dict_get sid (kept_sources lower cfg results)) as [kept|] eqn:E;
      [exfalso | reflexivity].
    apply dict_get_In, In_kept_sources in E as (titles & Hin & Hk & Hne).
    apply results_wf_split in Hwf as [Hnd _].
    apply dict_wf_NoDup in Hnd.
    rewrite (@In_dict_get _ sid titles results Hnd Hin) in Hget.
    injection Hget as ->.
    apply Hne. exact Hk.
  - exists [([], [])]. split; [reflexivity|]. split.
    + intros sid titles title [Hin | []] Ht. injection Hin as <- <-.
      destruct Ht.
    + intros quiet. rewrite filter_results_value by (assumption || reflexivity).
      discriminate.
Qed.

Lemma empty_sources_omitted_witness :
  enabled incomplete_config = true /\
  results_wf empty_source_results /\
  dict_get (of_ascii "src1") empty_source_results = Some [] /\
  dict_get (of_ascii "src1")
    (value (filter_results_by_category py_lower empty_source_results
              incomplete_config false)) = None.
Proof.
  assert (Hen : enabled incomplete_config = true) by reflexivity.
  assert (Hwf : results_wf empty_source_results) by reflexivity.
  assert (Hget : dict_get (of_ascii "src1") empty_source_results = Some [])
    by reflexivity.
  split; [exact Hen|]. split; [exact Hwf|]. split; [exact Hget|].
  exact (proj1 (@empty_sources_omitted py_lower (dict str) incomplete_config
                  Hen)
           empty_source_results false (of_ascii "src1") Hwf Hget).
Defined.

(** C5: for every enabled configuration and every result set, a source is in
    the output of the result-set filter if and only if one of its titles
    matches, with the titles that match, in their order, and with nothing
    else; no source is kept with an empty dictionary of titles.  On Scenario
    B the filter returns src1 with its one matching title, counts 3 titles
    before and 1 after, and prints them. *)
Theorem sources_kept_iff_title_matches :
  (forall (lower : str -> str) (title_data : Type) (cfg : config)
          (results : dict (dict title_data)) (quiet : bool),
     enabled cfg = true ->
     results_wf results ->
     let out := value (filter_results_by_category lower results cfg quiet) in
     (forall source_id,
        In source_id (dict_keys out) <->
        exists titles title,
          In (source_id, titles) results /\
          In title (dict_keys titles) /\
          matches_content_category lower title cfg = true) /\
     (forall source_id kept,
        In (source_id, kept) out ->
        kept <> [] /\
        exists titles,
          In (source_id, titles) results /\
          kept = kept_titles lower cfg titles)) /\
  filter_results_by_category py_lower scenario_b_results finance_config false
  = (scenario_b_output, [scenario_b_line]) /\
  total_before (results_loop py_lower finance_config scenario_b_results) = 3 /\
  total_after (results_loop py_lower finance_config scenario_b_results) = 1.
Proof.
  split; [|split; [reflexivity | split; reflexivity]].
  intros lower title_data cfg results quiet Hen Hwf out. subst out.
  rewrite filter_results_value by assumption. split.
  - intros sid. rewrite In_keys_item. split.
    + intros [kept Hin].
      apply In_kept_sources in Hin as (titles & Hin & -> & Hne).
      destruct (kept_titles lower cfg titles) as [|[title data] kept] eqn:E;
        [congruence|].
      assert (Ht : In (title, data) (kept_titles lower cfg titles))
        by (rewrite E; left; reflexivity).
      apply filter_In in Ht as [Ht Hm].
      exists titles, title. split; [exact Hin|]. split; [|exact Hm].
      apply In_keys_item. exists data. exact Ht.
    + intros (titles & title & Hin & Ht & Hm).
      exists (kept_titles lower cfg titles). apply In_kept_sources.
      exists titles. split; [exact Hin|]. split; [reflexivity|].
      apply In_keys_item in Ht as [data Ht].
      assert (Hk : In (title, data) (kept_titles lower cfg titles))
        by (apply filter_In; split; [exact Ht | exact Hm]).
      intros E. rewrite E in Hk. destruct Hk.
  - intros sid kept Hin.
    apply In_kept_sources in Hin as (titles & Hin & Hk & Hne).
    split; [exact Hne|]. exists titles. split; assumption.
Qed.

Lemma sources_kept_iff_title_matches_witness :
  enabled finance_config = true /\
  results_wf scenario_b_results /\
  (In (of_ascii "src2")
      (dict_keys (value (filter_results_by_category py_lower
                           scenario_b_results finance_config true))) <->
   exists titles title,
     In (of_ascii "src2", titles) scenario_b_results /\
     In title (dict_keys titles) /\
     matches_content_category py_lower title finance_config = true).
Proof.
  assert (Hen : enabled finance_config = true) by reflexivity.
  assert (Hwf : results_wf scenario_b_results) by reflexivity.
  split; [exact Hen|]. split; [exact Hwf|].
  exact (proj1 (proj1 sources_kept_iff_title_matches py_lower (dict str)
                  finance_config scenario_b_results true Hen Hwf)
           (of_ascii "src2")).
Defined.

(** ** Order, subset, idempotence *)

Lemma filter_results_disabled lower title_data cfg
    (results : dict (dict title_data)) quiet :
  enabled cfg = false ->
  value (filter_results_by_category lower results cfg quiet) = results.
Proof.
  intros H. unfold filter_results_by_category. rewrite H. reflexivity.
Qed.

Lemma filter_rss_items_disabled lower cfg (items : list rss_item) quiet :
  enabled cfg = false ->
  value (filter_rss_items_by_category lower items cfg quiet) = items.
Proof.
  intros H. unfold filter_rss_items_by_category. rewrite H. reflexivity.
Qed.

Lemma filter_idem {A : Type} (p : A -> bool) (l : list A) :
  filter p (filter p l) = filter p l.
Proof.
  induction l as [|x l IH]; simpl; [reflexivity|].
  destruct (p x) eqn:E; simpl; [rewrite E, IH|]; auto.
Qed.

Section KeepOrder.

Variable lower : str -> str.
Variable title_data : Type.
Variable cfg : config.
Variable quiet : bool.

Lemma filter_rss_items_Subseq (items : list rss_item) :
  Subseq (value (filter_rss_items_by_category lower items cfg quiet)) items.
Proof.
  destruct (enabled cfg) eqn:Hen.
  - rewrite filter_rss_items_value by exact Hen. apply Subseq_filter.
  - rewrite filter_rss_items_disabled by exact Hen. apply Subseq_refl.
Qed.

Lemma filter_results_keys_Subseq (results : dict (dict title_data)) :
  results_wf results ->
  Subseq
    (dict_keys (value (filter_results_by_category lower results cfg quiet)))
    (dict_keys results).
Proof.
  intros Hwf. destruct (enabled cfg) eqn:Hen.
  - rewrite filter_results_value by assumption.
    apply kept_sources_keys_Subseq.
  - rewrite filter_results_disabled by exact Hen. apply Subseq_refl.
Qed.

Lemma filter_results_titles_Subseq
    (results : dict (dict title_data)) source_id kept :
  results_wf results ->
  In (source_id, kept)
    (value (filter_results_by_category lower results cfg quiet)) ->
  exists titles, In (source_id, titles) results /\ Subseq kept titles.
Proof.
  intros Hwf. destruct (enabled cfg) eqn:Hen.
  - rewrite filter_results_value by assumption. intros Hin.
    apply In_kept_sources in Hin as (titles & Hin & -> & _).
    exists titles. split; [exact Hin | apply kept_titles_Subseq].
  - rewrite filter_results_disabled by exact Hen. intros Hin.
    exists kept. split; [exact Hin | apply Subseq_refl].
Qed.

End KeepOrder.

(** C6: for every input and every configuration, the items the item filter
    returns are in the order they have in the input; the sources the
    result-set filter returns are in the order they have in the input, and
    so are the titles it keeps of each source. *)
Theorem order_preserved
    (lower : str -> str) (title_data : Type) (cfg : config) (quiet : bool) :
  (forall items,
     Subseq (value (filter_rss_items_by_category lower items cfg quiet))
       items) /\
  (forall results : dict (dict title_data),
     results_wf results ->
     let out := value (filter_results_by_category lower results cfg quiet) in
     Subseq (dict_keys out) (dict_keys results) /\
     forall source_id kept,
       In (source_id, kept) out ->
       exists titles, In (source_id, titles) results /\ Subseq kept titles).
Proof.
  split.
  - intros items. apply filter_rss_items_Subseq.
  - intros results Hwf out. split.
    + apply filter_results_keys_Subseq. exact Hwf.
    + intros sid kept. apply filter_results_titles_Subseq. exact Hwf.
Qed.

Lemma order_preserved_witness :
  results_wf scenario_b_results /\
  Subseq
    (dict_keys (value (filter_results_by_category py_lower scenario_b_results
                         finance_config false)))
    (dict_keys scenario_b_results).
Proof.
  assert (Hwf : results_wf scenario_b_results) by reflexivity.
  split; [exact Hwf|].
  exact (proj1 (proj2 (order_preserved py_lower (dict str) finance_config false)
                  scenario_b_results Hwf)).
Defined.

(** C7: the items the item filter returns are items of its input, and every
    title the result-set filter returns under a source, with its payload,
    is in the input under that source: filtering adds nothing.  It holds for
    every configuration, the enabled and well-formed ones among them. *)
Theorem output_subset_of_input
    (lower : str -> str) (title_data : Type) (cfg : config) (quiet : bool) :
  (forall items item,
     In item (value (filter_rss_items_by_category lower items cfg quiet)) ->
     In item items) /\
  (forall results : dict (dict title_data),
     results_wf results ->
     forall source_id title data,
       has_title (value (filter_results_by_category lower results cfg quiet))
         source_id title data ->
       has_title results source_id title data).
Proof.
  split.
  - intros items item. apply Subseq_In, filter_rss_items_Subseq.
  - intros results Hwf sid title data (kept & Hs & Ht).
    apply dict_get_In, filter_results_titles_Subseq in Hs
      as (titles & Hin & Hsub); [|exact Hwf].
    apply results_wf_split in Hwf as [Hnd Hall].
    exists titles. split.
    + apply In_dict_get; [apply dict_wf_NoDup; exact Hnd | exact Hin].
    + rewrite Forall_forall in Hall.
      apply In_dict_get; [exact (Hall _ Hin)|].
      eapply Subseq_In; [exact Hsub | apply dict_get_In; exact Ht].
Qed.

Lemma output_subset_of_input_witness :
  results_wf scenario_b_results /\
  (has_title
     (value (filter_results_by_category py_lower scenario_b_results
               finance_config false))
     (of_ascii "src1") (of_ascii "A stock tip") [] ->
   has_title scenario_b_results (of_ascii "src1") (of_ascii "A stock tip") []).
Proof.
  assert (Hwf : results_wf scenario_b_results) by reflexivity.
  split; [exact Hwf|].
  exact (proj2 (output_subset_of_input py_lower (dict str) finance_config false)
           scenario_b_results Hwf (of_ascii "src1") (of_ascii "A stock tip") []).
Defined.

(** C8: for every configuration and every input, filtering what a filter
    returned, with the same configuration, changes nothing. *)
Theorem filter_idempotent
    (lower : str -> str) (title_data : Type) (cfg : config)
    (quiet quiet' : bool) :
  (forall items,
     value (filter_rss_items_by_category lower
              (value (filter_rss_items_by_category lower items cfg quiet))
              cfg quiet')
     = value (filter_rss_items_by_category lower items cfg quiet)) /\
  (forall results : dict (dict title_data),
     results_wf results ->
     value (filter_results_by_category lower
              (value (filter_results_by_category lower results cfg quiet))
              cfg quiet')
     = value (filter_results_by_category lower results cfg quiet)).
Proof.
  destruct (enabled cfg) eqn:Hen; split.
  - intros items. rewrite !filter_rss_items_value by exact Hen.
    apply filter_idem.
  - intros results Hwf.
    rewrite (@filter_results_value lower title_data cfg results quiet Hen Hwf).
    rewrite filter_results_value;
      [apply kept_sources_idem | exact Hen | apply kept_sources_wf; exact Hwf].
  - intros items. rewrite !filter_rss_items_disabled by exact Hen.
    reflexivity.
  - intros results Hwf. rewrite !filter_results_disabled by exact Hen.
    reflexivity.
Qed.

Lemma filter_idempotent_witness :
  results_wf scenario_b_results /\
  value (filter_results_by_category py_lower
           (value (filter_results_by_category py_lower scenario_b_results
                     finance_config false))
           finance_config false)
  = value (filter_results_by_category py_lower scenario_b_results
             finance_config false).
Proof.
  assert (Hwf : results_wf scenario_b_results) by reflexivity.
  split; [exact Hwf|].
  exact (proj2 (filter_idempotent py_lower (dict str) finance_config false false)
           scenario_b_results Hwf).
Defined.

(** ** Case *)

Lemma no_capital_sigma (s : str) :
  has_capital_sigma s = false -> ~ In 0x3A3%N s.
Proof.
  unfold has_capital_sigma. intros H Hin.
  assert (E : existsb (N.eqb 0x3A3) s = true)
    by (apply existsb_exists; exists 0x3A3%N; split;
        [exact Hin | apply N.eqb_refl]).
  rewrite E in H. discriminate H.
Qed.

(** C9: the code does not do what the claim says and what its own comment
    on the test says ("关键词匹配（忽略大小写）", keyword matching that ignores
    case).  The title "ΑΣΑ" contains the keyword "ΑΣ" of this enabled,
    complete configuration letter for letter, and the matcher returns
    false: [str.lower] gives the sigma that ends the keyword its final form
    and the sigma inside the title the other form. *)
Lemma final_sigma_keyword_missed :
  well_formed sigma_config = true /\
  In sigma_keyword
    (dict_get_or (of_ascii "greek") [] (keywords_of sigma_config)) /\
  sigma_title = [] ++ sigma_keyword ++ [0x391]%N /\
  py_lower sigma_keyword = [0x3B1; 0x3C2]%N /\
  py_lower sigma_title = [0x3B1; 0x3C3; 0x3B1]%N /\
  matches_content_category py_lower sigma_title sigma_config = false.
Proof.
  split; [reflexivity|]. split; [left; reflexivity|].
  repeat (split; [reflexivity|]). reflexivity.
Qed.

(** X17: where the code does ignore case.  For every configuration, a title
    that contains an occurrence whose lowered form is the lowered form of a
    keyword of a listed category matches whenever the lowered title contains
    that lowered form; in ASCII and basic Greek text without a capital sigma
    it always does, so there a keyword matches in any capitalization.  The
    title "the rise of ai models" matches the keyword "AI". *)
Theorem case_variant_matches :
  (forall (lower : str -> str) (cfg : config)
          (category keyword before occurrence after : str),
     In category (categories_of cfg) ->
     In keyword (dict_get_or category [] (keywords_of cfg)) ->
     lower occurrence = lower keyword ->
     (exists pre post,
        lower (before ++ occurrence ++ after)
        = pre ++ lower occurrence ++ post) ->
     matches_content_category lower (before ++ occurrence ++ after) cfg
     = true) /\
  (forall (cfg : config) (category keyword before occurrence after : str),
     In category (categories_of cfg) ->
     In keyword (dict_get_or category [] (keywords_of cfg)) ->
     in_lower_range keyword = true ->
     in_lower_range (before ++ occurrence ++ after) = true ->
     has_capital_sigma (before ++ occurrence ++ after) = false ->
     py_lower occurrence = py_lower keyword ->
     matches_content_category py_lower (before ++ occurrence ++ after) cfg
     = true) /\
  matches_content_category py_lower (of_ascii "the rise of ai models")
    tech_config = true.
Proof.
  assert (Hgen : forall (lower : str -> str) (cfg : config)
            (category keyword before occurrence after : str),
     In category (categories_of cfg) ->
     In keyword (dict_get_or category [] (keywords_of cfg)) ->
     lower occurrence = lower keyword ->
     (exists pre post,
        lower (before ++ occurrence ++ after)
        = pre ++ lower occurrence ++ post) ->
     matches_content_category lower (before ++ occurrence ++ after) cfg
     = true).
  { intros lower cfg category keyword before occurrence after Hc Hk Hocc Hd.
    apply (@matches_by_keyword lower cfg _ category keyword Hc Hk).
    apply str_in_spec. rewrite <- Hocc. exact Hd. }
  split; [exact Hgen|]. split; [|reflexivity].
  intros cfg category keyword before occurrence after Hc Hk _ _ Hs Hocc.
  apply (Hgen py_lower cfg category keyword); try assumption.
  apply no_capital_sigma in Hs.
  exists (py_lower before), (py_lower after).
  rewrite py_lower_app_no_sigma by exact Hs.
  rewrite py_lower_app_no_sigma; [reflexivity|].
  intros Hin. apply Hs, in_or_app. right. exact Hin.
Qed.

Lemma case_variant_matches_witness :
  In (of_ascii "tech") (categories_of tech_config) /\
  In (of_ascii "AI")
    (dict_get_or (of_ascii "tech") [] (keywords_of tech_config)) /\
  in_lower_range (of_ascii "AI") = true /\
  in_lower_range
    (of_ascii "the rise of " ++ of_ascii "ai" ++ of_ascii " models") = true /\
  has_capital_sigma
    (of_ascii "the rise of " ++ of_ascii "ai" ++ of_ascii " models") = false /\
  py_lower (of_ascii "ai") = py_lower (of_ascii "AI") /\
  matches_content_category py_lower
    (of_ascii "the rise of " ++ of_ascii "ai" ++ of_ascii " models")
    tech_config = true.
Proof.
  assert (Hc : In (of_ascii "tech") (categories_of tech_config))
    by (left; reflexivity).
  assert (Hk : In (of_ascii "AI")
                 (dict_get_or (of_ascii "tech") [] (keywords_of tech_config)))
    by (left; reflexivity).
  split; [exact Hc|]. split; [exact Hk|].
  split; [reflexivity|]. split; [reflexivity|]. split; [reflexivity|].
  split; [reflexivity|].
  exact (proj1 (proj2 case_variant_matches) tech_config
           (of_ascii "tech") (of_ascii "AI")
           (of_ascii "the rise of ") (of_ascii "ai") (of_ascii " models")
           Hc Hk eq_refl eq_refl eq_refl eq_refl).
Defined.

(** ** The empty item list *)

(** C10: for every enabled configuration, the item filter applied to the
    empty list returns it and prints nothing, quiet or not. *)
Theorem empty_items_unchanged_silent
    (lower : str -> str) (cfg : config) (quiet : bool) :
  enabled cfg = true ->
  value (filter_rss_items_by_category lower [] cfg quiet) = [] /\
  printed (filter_rss_items_by_category lower [] cfg quiet) = [].
Proof.
  intros Hen. unfold filter_rss_items_by_category. rewrite Hen.
  split; reflexivity.
Qed.

Lemma empty_items_unchanged_silent_witness :
  enabled finance_config = true /\
  value (filter_rss_items_by_category py_lower [] finance_config false) = [] /\
  printed (filter_rss_items_by_category py_lower [] finance_config false) = [].
Proof.
  split; [reflexivity|].
  exact (@empty_items_unchanged_silent py_lower finance_config false eq_refl).
Defined.

(** * Further properties of the module *)

Unset Implicit Arguments.

(** ** The matcher and the configuration *)

Lemma existsb_ext_in {A : Type} (f g : A -> bool) (l : list A) :
  (forall x, In x l -> f x = g x) -> existsb f l = existsb g l.
Proof.
  induction l as [|x l IH]; intros H; simpl; [reflexivity|].
  rewrite (H x) by (left; reflexivity).
  rewrite IH by (intros y Hy; apply H; right; exact Hy). reflexivity.
Qed.

Lemma existsb_same_members {A : Type} (f : A -> bool) (l1 l2 : list A) :
  (forall x, In x l1 <-> In x l2) -> existsb f l1 = existsb f l2.
Proof.
  intros H. apply eq_true_iff_eq. rewrite !existsb_exists.
  split; intros [x [Hin Hf]]; exists x; (split; [apply H; exact Hin | exact Hf]).
Qed.

Lemma is_empty_same_members {A : Type} (l1 l2 : list A) :
  (forall x, In x l1 <-> In x l2) -> is_empty l1 = is_empty l2.
Proof.
  intros H. destruct l1 as [|x l1], l2 as [|y l2]; try reflexivity.
  - destruct (proj2 (H y)). left. reflexivity.
  - destruct (proj1 (H x)). left. reflexivity.
Qed.

Lemma filter_all_false {A : Type} (p : A -> bool) (l : list A) :
  (forall x, In x l -> p x = false) -> filter p l = [].
Proof.
  induction l as [|x l IH]; intros H; simpl; [reflexivity|].
  rewrite (H x) by (left; reflexivity).
  apply IH. intros y Hy. apply H. right. exact Hy.
Qed.

(** A configuration that is not enabled and complete lets every title
    pass. *)
Lemma matches_not_well_formed lower cfg title :
  well_formed cfg = false -> matches_content_category lower title cfg = true.
Proof.
  unfold well_formed. intros H.
  destruct (enabled cfg) eqn:Hen; [|apply matches_disabled; exact Hen].
  apply matches_incomplete.
  destruct (categories_of cfg); [left; reflexivity|].
  destruct (keywords_of cfg); [right; reflexivity | discriminate H].
Qed.

(** X1: the order of the categories, and a category listed twice, make no
    difference to the matcher: two configurations that list the same
    categories and are otherwise equal give the same answer for every
    title. *)
Theorem category_order_irrelevant
    (lower : str -> str) (flag : option bool) (categories categories' : list str)
    (keywords : option (dict (list str))) (title : str) :
  (forall category, In category categories <-> In category categories') ->
  matches_content_category lower title
    {| ENABLED := flag; CATEGORIES := Some categories; KEYWORDS := keywords |}
  = matches_content_category lower title
      {| ENABLED := flag; CATEGORIES := Some categories';
         KEYWORDS := keywords |}.
Proof.
  intros H. unfold matches_content_category, enabled, categories_of,
    keywords_of. cbn [ENABLED CATEGORIES KEYWORDS get_or].
  rewrite (is_empty_same_members _ _ H).
  rewrite (existsb_same_members _ _ _ H). reflexivity.
Qed.

Lemma category_order_irrelevant_witness :
  (forall category,
     In category [of_ascii "finance"; of_ascii "tech"] <->
     In category [of_ascii "tech"; of_ascii "finance"; of_ascii "tech"]) /\
  matches_content_category py_lower (of_ascii "AI bank")
    {| ENABLED := Some true;
       CATEGORIES := Some [of_ascii "finance"; of_ascii "tech"];
       KEYWORDS := KEYWORDS wider_config |}
  = matches_content_category py_lower (of_ascii "AI bank")
      {| ENABLED := Some true;
         CATEGORIES := Some [of_ascii "tech"; of_ascii "finance"; of_ascii "tech"];
         KEYWORDS := KEYWORDS wider_config |}.
Proof.
  assert (H : forall category,
     In category [of_ascii "finance"; of_ascii "tech"] <->
     In category [of_ascii "tech"; of_ascii "finance"; of_ascii "tech"])
    by (intros category; simpl; tauto).
  split; [exact H|].
  exact (category_order_irrelevant py_lower (Some true) _ _
           (KEYWORDS wider_config) (of_ascii "AI bank") H).
Defined.

(** X2: when the keywords are not empty and no listed category has an entry
    among them, an enabled configuration rejects every title: the item
    filter returns the empty list and the result-set filter the empty
    dictionary, whatever the input. *)
Theorem no_listed_category_has_keywords
    (lower : str -> str) (title_data : Type) (cfg : config) :
  well_formed cfg = true ->
  (forall category,
     In category (categories_of cfg) ->
     dict_get category (keywords_of cfg) = None) ->
  (forall title, matches_content_category lower title cfg = false) /\
  (forall items quiet,
     value (filter_rss_items_by_category lower items cfg quiet) = []) /\
  (forall (results : dict (dict title_data)) quiet,
     results_wf results ->
     value (filter_results_by_category lower results cfg quiet) = []).
Proof.
  intros Hwf Hnone.
  assert (Hno : forall title, matches_content_category lower title cfg = false).
  { intros title.
    destruct (matches_content_category lower title cfg) eqn:E; [|reflexivity].
    apply (proj1 (@matches_well_formed lower cfg title Hwf)) in E
      as (category & keyword & Hc & Hk & _).
    unfold dict_get_or in Hk. rewrite (Hnone category Hc) in Hk. destruct Hk. }
  apply (proj1 (@well_formed_split lower cfg)) in Hwf as (Hen & _ & _).
  split; [exact Hno|]. split.
  - intros items quiet. rewrite filter_rss_items_value by exact Hen.
    apply filter_all_false. intros item _. apply Hno.
  - intros results quiet Hr. rewrite filter_results_value by assumption.
    clear Hr. induction results as [|[sid titles] results IH]; [reflexivity|].
    rewrite kept_sources_cons, IH. unfold kept_titles.
    rewrite filter_all_false by (intros e _; apply Hno). reflexivity.
Qed.

Lemma no_listed_category_has_keywords_witness :
  well_formed unlisted_config = true /\
  (forall category,
     In category (categories_of unlisted_config) ->
     dict_get category (keywords_of unlisted_config) = None) /\
  matches_content_category py_lower (of_ascii "A stock tip") unlisted_config
  = false /\
  value (filter_rss_items_by_category py_lower scenario_a_items
           unlisted_config false) = [].
Proof.
  assert (Hwf : well_formed unlisted_config = true) by reflexivity.
  assert (Hnone : forall category,
     In category (categories_of unlisted_config) ->
     dict_get category (keywords_of unlisted_config) = None).
  { intros category [<- | []]. reflexivity. }
  destruct (no_listed_category_has_keywords py_lower (dict str)
              unlisted_config Hwf Hnone) as (Hm & Hi & _).
  split; [exact Hwf|]. split; [exact Hnone|]. split; [apply Hm | apply Hi].
Defined.

(** X3: keywords filed under a category that is not listed are never looked
    at: two keyword dictionaries that give the listed categories the same
    keywords, both empty or both not, give the same answer for every
    title. *)
Theorem unlisted_keywords_ignored
    (lower : str -> str) (flag : option bool) (categories : list str)
    (keywords keywords' : dict (list str)) (title : str) :
  is_empty keywords = is_empty keywords' ->
  (forall category,
     In category categories ->
     dict_get_or category [] keywords = dict_get_or category [] keywords') ->
  matches_content_category lower title
    {| ENABLED := flag; CATEGORIES := Some categories;
       KEYWORDS := Some keywords |}
  = matches_content_category lower title
      {| ENABLED := flag; CATEGORIES := Some categories;
         KEYWORDS := Some keywords' |}.
Proof.
  intros He H. unfold matches_content_category, enabled, categories_of,
    keywords_of. cbn [ENABLED CATEGORIES KEYWORDS get_or].
  rewrite He.
  rewrite (existsb_ext_in _ (category_matches lower (lower title) keywords')
             categories); [reflexivity|].
  intros category Hc. unfold category_matches. rewrite (H category Hc).
  reflexivity.
Qed.

Lemma unlisted_keywords_ignored_witness :
  is_empty (keywords_of finance_config) = is_empty (keywords_of wider_config) /\
  matches_content_category py_lower (of_ascii "Stock prices surge")
    {| ENABLED := Some true; CATEGORIES := Some [of_ascii "tech"];
       KEYWORDS := Some (keywords_of tech_config) |}
  = matches_content_category py_lower (of_ascii "Stock prices surge")
      {| ENABLED := Some true; CATEGORIES := Some [of_ascii "tech"];
         KEYWORDS := Some (keywords_of wider_config) |}.
Proof.
  split; [reflexivity|].
  apply (unlisted_keywords_ignored py_lower (Some true) [of_ascii "tech"]
           (keywords_of tech_config) (keywords_of wider_config)).
  - reflexivity.
  - intros category [<- | []]. reflexivity.
Defined.

(** X4: a title whose lowered form contains the lowered form of a title
    that matches, matches too.  It is a fact about the lowered forms, not
    about the titles: "ΑΣΑ" contains "ΑΣ" and its lowered form does not
    contain the lowered form of "ΑΣ". *)
Theorem longer_title_matches
    (lower : str -> str) (cfg : config) (title title' before after : str) :
  matches_content_category lower title cfg = true ->
  lower title' = before ++ lower title ++ after ->
  matches_content_category lower title' cfg = true.
Proof.
  intros Hm Hl.
  destruct (well_formed cfg) eqn:Hwf;
    [|apply matches_not_well_formed; exact Hwf].
  apply (proj1 (@matches_well_formed lower cfg title Hwf)) in Hm
    as (category & keyword & Hc & Hk & Hs).
  apply (proj2 (@matches_well_formed lower cfg title' Hwf)).
  exists category, keyword. split; [exact Hc|]. split; [exact Hk|].
  apply str_in_spec in Hs as (pre & post & Hs). apply str_in_spec.
  exists (before ++ pre), (post ++ after).
  rewrite Hl, Hs, <- !app_assoc. reflexivity.
Qed.

Lemma longer_title_matches_witness :
  matches_content_category py_lower (of_ascii "Stock") finance_config = true /\
  py_lower (of_ascii "New STOCK tips")
  = of_ascii "new " ++ py_lower (of_ascii "Stock") ++ of_ascii " tips" /\
  matches_content_category py_lower (of_ascii "New STOCK tips") finance_config
  = true.
Proof.
  split; [reflexivity|]. split; [reflexivity|].
  exact (longer_title_matches py_lower finance_config (of_ascii "Stock")
           (of_ascii "New STOCK tips") (of_ascii "new ") (of_ascii " tips")
           eq_refl eq_refl).
Defined.


(** X15: a configuration that lists more categories, or more keywords under
    the categories listed, never rejects what the narrower one accepts:
    every title that matches the narrower, enabled and complete
    configuration matches the wider one, and every item the item filter
    keeps under the narrower one it keeps under the wider one. *)
Theorem wider_config_keeps_more
    (lower : str -> str) (cfg cfg' : config) :
  well_formed cfg = true ->
  (forall category,
     In category (categories_of cfg) -> In category (categories_of cfg')) ->
  (forall category keyword,
     In category (categories_of cfg) ->
     In keyword (dict_get_or category [] (keywords_of cfg)) ->
     In keyword (dict_get_or category [] (keywords_of cfg'))) ->
  (forall title,
     matches_content_category lower title cfg = true ->
     matches_content_category lower title cfg' = true) /\
  (forall items quiet quiet' item,
     In item (value (filter_rss_items_by_category lower items cfg quiet)) ->
     In item (value (filter_rss_items_by_category lower items cfg' quiet'))).
Proof.
  intros Hwf Hcats Hkws.
  assert (Hm : forall title,
            matches_content_category lower title cfg = true ->
            matches_content_category lower title cfg' = true).
  { intros title Hm.
    apply (proj1 (@matches_well_formed lower cfg title Hwf)) in Hm
      as (category & keyword & Hc & Hk & Hs).
    apply (@matches_by_keyword lower cfg' title category keyword); auto. }
  split; [exact Hm|].
  intros items quiet quiet' item.
  apply (proj1 (@well_formed_split lower cfg)) in Hwf as (Hen & _ & _).
  rewrite filter_rss_items_value by exact Hen.
  intros Hin. apply filter_In in Hin as [Hin Hp].
  destruct (enabled cfg') eqn:Hen'.
  - rewrite filter_rss_items_value by exact Hen'.
    apply filter_In. split; [exact Hin|]. apply Hm. exact Hp.
  - rewrite filter_rss_items_disabled by exact Hen'. exact Hin.
Qed.

Lemma wider_config_keeps_more_witness :
  well_formed finance_config = true /\
  (matches_content_category py_lower (of_ascii "Market closes flat")
     finance_config = true ->
   matches_content_category py_lower (of_ascii "Market closes flat")
     wider_config = true).
Proof.
  assert (Hwf : well_formed finance_config = true) by reflexivity.
  split; [exact Hwf|].
  apply (wider_config_keeps_more py_lower finance_config wider_config Hwf).
  - intros category [<- | []]. left. reflexivity.
  - intros category keyword [<- | []] [<- | [<- | []]].
    + left. reflexivity.
    + right. left. reflexivity.
Defined.

(** ** What the filters return, exactly *)

(** The item filter, for every configuration. *)
Lemma filter_rss_items_any lower cfg (items : list rss_item) quiet :
  value (filter_rss_items_by_category lower items cfg quiet)
  = filter (item_passes lower cfg) items.
Proof.
  destruct (enabled cfg) eqn:Hen.
  - apply filter_rss_items_value. exact Hen.
  - rewrite filter_rss_items_disabled by exact Hen. symmetry.
    apply filter_all_true. intros item _. apply matches_disabled. exact Hen.
Qed.

(** X6: for every configuration, the item filter returns exactly the items
    whose title, the empty string when there is none, the matcher accepts:
    each as often as the input has it and in the input's order.  No item
    that matches is lost. *)
Theorem items_kept_exactly
    (lower : str -> str) (cfg : config) (quiet : bool)
    (items : list rss_item) :
  value (filter_rss_items_by_category lower items cfg quiet)
  = filter
      (fun item =>
         matches_content_category lower
           (dict_get_or (of_ascii "title") [] item) cfg)
      items.
Proof. apply filter_rss_items_any. Qed.

(** X7: an item without a title, or with the empty title, is filtered as the
    empty string: when the configuration is enabled and complete and none of
    the keywords of its listed categories lowers to the empty string, the
    item filter never returns such an item. *)
Theorem untitled_item_dropped
    (lower : str -> str) (cfg : config) (quiet : bool)
    (items : list rss_item) (item : rss_item) :
  well_formed cfg = true ->
  lower [] = [] ->
  (forall category keyword,
     In category (categories_of cfg) ->
     In keyword (dict_get_or category [] (keywords_of cfg)) ->
     lower keyword <> []) ->
  dict_get (of_ascii "title") item = None
  \/ dict_get (of_ascii "title") item = Some [] ->
  ~ In item (value (filter_rss_items_by_category lower items cfg quiet)).
Proof.
  intros Hwf Hl Hkw Ht Hin.
  rewrite filter_rss_items_any in Hin. apply filter_In in Hin as [_ Hp].
  assert (E : title_of item = [])
    by (unfold title_of, dict_get_or; unfold str in Ht;
        destruct Ht as [-> | ->]; reflexivity).
  assert (Hm : matches_content_category lower [] cfg = true)
    by (rewrite <- E; exact Hp).
  apply (proj1 (@matches_well_formed lower cfg [] Hwf)) in Hm
    as (category & keyword & Hc & Hk & Hs).
  apply (Hkw category keyword Hc Hk).
  rewrite Hl in Hs. apply str_in_spec in Hs as (pre & post & Hs).
  destruct pre; [|discriminate Hs].
  destruct (lower keyword); [reflexivity | discriminate Hs].
Qed.

Lemma untitled_item_dropped_witness :
  well_formed finance_config = true /\
  py_lower [] = [] /\
  dict_get (of_ascii "title") untitled_item = None /\
  ~ In untitled_item
      (value (filter_rss_items_by_category py_lower
                (untitled_item :: scenario_a_items) finance_config false)).
Proof.
  assert (Hwf : well_formed finance_config = true) by reflexivity.
  assert (Ht : dict_get (of_ascii "title") untitled_item = None) by reflexivity.
  split; [exact Hwf|]. split; [reflexivity|]. split; [exact Ht|].
  apply (untitled_item_dropped py_lower finance_config false
           (untitled_item :: scenario_a_items) untitled_item Hwf eq_refl).
  - intros category keyword [<- | []] [<- | [<- | []]]; discriminate.
  - left. exact Ht.
Defined.

(** X5: for every configuration, [results[source][title]] is in the output
    of the result-set filter, with its payload, exactly when it is in the
    input and the matcher accepts the title: no title that matches is lost
    and no payload is changed. *)
Theorem titles_kept_exactly
    (lower : str -> str) (title_data : Type) (cfg : config) (quiet : bool)
    (results : dict (dict title_data)) :
  results_wf results ->
  forall source_id title data,
    has_title (value (filter_results_by_category lower results cfg quiet))
      source_id title data
    <->
    has_title results source_id title data /\
    matches_content_category lower title cfg = true.
Proof.
  intros Hwf sid title data.
  destruct (enabled cfg) eqn:Hen.
  - rewrite filter_results_value by assumption.
    pose proof (kept_sources_wf lower cfg Hwf) as Hout.
    apply results_wf_split in Hwf as [Hnd Hall].
    apply results_wf_split in Hout as [Hnd' Hall'].
    rewrite Forall_forall in Hall, Hall'.
    apply dict_wf_NoDup in Hnd, Hnd'. split.
    + intros (kept & Hs & Ht).
      apply dict_get_In, In_kept_sources in Hs as (titles & Hin & -> & _).
      apply dict_get_In, filter_In in Ht as [Ht Hm].
      split; [|exact Hm]. exists titles. split.
      * apply In_dict_get; assumption.
      * apply In_dict_get; [exact (Hall _ Hin) | exact Ht].
    + intros [(titles & Hs & Ht) Hm].
      apply dict_get_In in Hs, Ht.
      assert (Hk : In (title, data) (kept_titles lower cfg titles))
        by (apply filter_In; split; [exact Ht | exact Hm]).
      assert (Hin : In (sid, kept_titles lower cfg titles)
                      (kept_sources lower cfg results)).
      { apply In_kept_sources. exists titles.
        split; [exact Hs|]. split; [reflexivity|].
        intros E. rewrite E in Hk. destruct Hk. }
      exists (kept_titles lower cfg titles). split.
      * apply In_dict_get; assumption.
      * apply In_dict_get; [exact (Hall' _ Hin) | exact Hk].
  - rewrite filter_results_disabled by exact Hen.
    rewrite (matches_disabled lower cfg title Hen). tauto.
Qed.

Lemma titles_kept_exactly_witness :
  results_wf scenario_b_results /\
  (has_title
     (value (filter_results_by_category py_lower scenario_b_results
               finance_config false))
     (of_ascii "src2") (of_ascii "Sports update") []
   <->
   has_title scenario_b_results (of_ascii "src2") (of_ascii "Sports update") []
   /\ matches_content_category py_lower (of_ascii "Sports update")
        finance_config = true).
Proof.
  assert (Hwf : results_wf scenario_b_results) by reflexivity.
  split; [exact Hwf|].
  exact (titles_kept_exactly py_lower (dict str) finance_config false
           scenario_b_results Hwf
           (of_ascii "src2") (of_ascii "Sports update") []).
Defined.

(** X12: the output of the result-set filter is again a dictionary of
    dictionaries: no source and no title of a source occurs twice. *)
Theorem output_is_result_set
    (lower : str -> str) (title_data : Type) (cfg : config) (quiet : bool)
    (results : dict (dict title_data)) :
  results_wf results ->
  results_wf (value (filter_results_by_category lower results cfg quiet)).
Proof.
  intros Hwf. destruct (enabled cfg) eqn:Hen.
  - rewrite filter_results_value by assumption.
    apply kept_sources_wf. exact Hwf.
  - rewrite filter_results_disabled by exact Hen. exact Hwf.
Qed.

Lemma output_is_result_set_witness :
  results_wf scenario_b_results /\
  results_wf
    (value (filter_results_by_category py_lower scenario_b_results
              finance_config false)).
Proof.
  assert (Hwf : results_wf scenario_b_results) by reflexivity.
  split; [exact Hwf|].
  exact (output_is_result_set py_lower (dict str) finance_config false
           scenario_b_results Hwf).
Defined.

(** ** The summary line *)

(** X8: an enabled result-set filter that is not quiet prints one line, and
    the line gives the number of titles of the input, the number of titles
    of the output and the configured categories; it prints the line for an
    empty result set too. *)
Theorem results_summary_line
    (lower : str -> str) (title_data : Type) (cfg : config)
    (results : dict (dict title_data)) :
  enabled cfg = true ->
  results_wf results ->
  printed (filter_results_by_category lower results cfg false)
  = [summary_line results_label
       (count_titles results)
       (count_titles
          (value (filter_results_by_category lower results cfg false)))
       (categories_of cfg)].
Proof.
  intros Hen Hwf. rewrite filter_results_value by assumption.
  unfold filter_results_by_category.
  rewrite Hen, (results_loop_spec lower cfg Hwf). reflexivity.
Qed.

Lemma results_summary_line_witness :
  enabled finance_config = true /\
  results_wf scenario_b_results /\
  printed (filter_results_by_category py_lower scenario_b_results
             finance_config false)
  = [summary_line results_label (count_titles scenario_b_results)
       (count_titles
          (value (filter_results_by_category py_lower scenario_b_results
                    finance_config false)))
       (categories_of finance_config)].
Proof.
  assert (Hen : enabled finance_config = true) by reflexivity.
  assert (Hwf : results_wf scenario_b_results) by reflexivity.
  split; [exact Hen|]. split; [exact Hwf|].
  exact (results_summary_line py_lower (dict str) finance_config
           scenario_b_results Hen Hwf).
Defined.

(** X9: an enabled item filter that is not quiet, given at least one item,
    prints one line with the number of items of the input, the number of
    items it returns and the configured categories; it prints it also when
    it returns no item. *)
Theorem items_summary_line
    (lower : str -> str) (cfg : config) (items : list rss_item) :
  enabled cfg = true ->
  items <> [] ->
  printed (filter_rss_items_by_category lower items cfg false)
  = [summary_line rss_label
       (List.length items)
       (List.length
          (value (filter_rss_items_by_category lower items cfg false)))
       (categories_of cfg)].
Proof.
  intros Hen Hne. unfold filter_rss_items_by_category. rewrite Hen.
  destruct items as [|item items]; [congruence | reflexivity].
Qed.

Lemma items_summary_line_witness :
  enabled unlisted_config = true /\
  scenario_a_items <> [] /\
  printed (filter_rss_items_by_category py_lower scenario_a_items
             unlisted_config false)
  = [summary_line rss_label 3 0 (categories_of unlisted_config)].
Proof.
  assert (Hen : enabled unlisted_config = true) by reflexivity.
  assert (Hne : scenario_a_items <> []) by discriminate.
  split; [exact Hen|]. split; [exact Hne|].
  exact (items_summary_line py_lower unlisted_config scenario_a_items Hen Hne).
Defined.

(** X10: the quiet flag only silences the filters: with it they print
    nothing, and they return what they return without it, for every
    configuration and every input. *)
Theorem quiet_only_silences
    (lower : str -> str) (title_data : Type) (cfg : config) :
  (forall results : dict (dict title_data),
     printed (filter_results_by_category lower results cfg true) = [] /\
     value (filter_results_by_category lower results cfg true)
     = value (filter_results_by_category lower results cfg false)) /\
  (forall items,
     printed (filter_rss_items_by_category lower items cfg true) = [] /\
     value (filter_rss_items_by_category lower items cfg true)
     = value (filter_rss_items_by_category lower items cfg false)).
Proof.
  split.
  - intros results. unfold filter_results_by_category.
    destruct (enabled cfg); split; reflexivity.
  - intros items. unfold filter_rss_items_by_category.
    destruct (enabled cfg), items; split; reflexivity.
Qed.

(** ** Counts *)

Lemma Subseq_length {A : Type} (l1 l2 : list A) :
  Subseq l1 l2 -> List.length l1 <= List.length l2.
Proof. induction 1; simpl; lia. Qed.

Lemma count_titles_kept_sources lower title_data cfg
    (results : dict (dict title_data)) :
  count_titles (kept_sources lower cfg results) <= count_titles results.
Proof.
  induction results as [|[sid titles] results IH]; [apply Nat.le_refl|].
  rewrite kept_sources_cons, count_titles_cons.
  pose proof (Subseq_length _ _ (kept_titles_Subseq lower cfg titles)) as Hl.
  destruct (kept_titles lower cfg titles) as [|e kept]; cbn [is_empty app].
  - lia.
  - rewrite count_titles_cons. unfold dict_len. lia.
Qed.

(** X11: the second number of the summary line is never greater than the
    first: the item filter returns at most as many items as it is given,
    and the result-set filter at most as many sources and at most as many
    titles. *)
Theorem counts_never_grow
    (lower : str -> str) (title_data : Type) (cfg : config) (quiet : bool) :
  (forall items,
     List.length (value (filter_rss_items_by_category lower items cfg quiet))
     <= List.length items) /\
  (forall results : dict (dict title_data),
     results_wf results ->
     let out := value (filter_results_by_category lower results cfg quiet) in
     dict_len out <= dict_len results /\
     count_titles out <= count_titles results).
Proof.
  split.
  - intros items. apply Subseq_length, filter_rss_items_Subseq.
  - intros results Hwf out. subst out. split.
    + unfold dict_len. rewrite <- !(length_map fst).
      apply Subseq_length. apply filter_results_keys_Subseq. exact Hwf.
    + destruct (enabled cfg) eqn:Hen.
      * rewrite filter_results_value by assumption.
        apply count_titles_kept_sources.
      * rewrite filter_results_disabled by exact Hen. apply Nat.le_refl.
Qed.

Lemma counts_never_grow_witness :
  results_wf scenario_b_results /\
  count_titles
    (value (filter_results_by_category py_lower scenario_b_results
              finance_config false))
  <= count_titles scenario_b_results.
Proof.
  assert (Hwf : results_wf scenario_b_results) by reflexivity.
  split; [exact Hwf|].
  exact (proj2 (proj2 (counts_never_grow py_lower (dict str) finance_config
                         false)
                  scenario_b_results Hwf)).
Defined.

(** ** Inputs in pieces, inputs that pass whole, two filters in a row *)

Lemma kept_sources_app lower title_data cfg
    (results results' : dict (dict title_data)) :
  kept_sources lower cfg (results ++ results')
  = kept_sources lower cfg results ++ kept_sources lower cfg results'.
Proof. unfold kept_sources. apply flat_map_app. Qed.

(** X13: items and sources are filtered one by one, each on its own: the
    filter of two lists of items one after the other is the filter of the
    first followed by the filter of the second, and likewise for a result
    set made of two result sets with different sources. *)
Theorem filter_piecewise
    (lower : str -> str) (title_data : Type) (cfg : config) (quiet : bool) :
  (forall items items',
     value (filter_rss_items_by_category lower (items ++ items') cfg quiet)
     = value (filter_rss_items_by_category lower items cfg quiet)
       ++ value (filter_rss_items_by_category lower items' cfg quiet)) /\
  (forall results results' : dict (dict title_data),
     results_wf (results ++ results') ->
     value (filter_results_by_category lower (results ++ results') cfg quiet)
     = value (filter_results_by_category lower results cfg quiet)
       ++ value (filter_results_by_category lower results' cfg quiet)).
Proof.
  split.
  - intros items items'. rewrite !filter_rss_items_any. apply filter_app.
  - intros results results' Hwf.
    destruct (enabled cfg) eqn:Hen.
    + assert (Hwf1 : results_wf results /\ results_wf results').
      { apply results_wf_split in Hwf as [Hnd Hall].
        rewrite dict_keys_app in Hnd. apply Forall_app in Hall as [H1 H2].
        split; apply results_wf_split; split; try assumption.
        - apply NoDup_app_remove_r in Hnd. exact Hnd.
        - apply NoDup_app_remove_l in Hnd. exact Hnd. }
      destruct Hwf1 as [Hwf1 Hwf2].
      rewrite !filter_results_value by assumption. apply kept_sources_app.
    + rewrite !filter_results_disabled by exact Hen. reflexivity.
Qed.

Lemma filter_piecewise_witness :
  results_wf (scenario_b_results ++ [(of_ascii "src3", [])]) /\
  value (filter_results_by_category py_lower
           (scenario_b_results ++ [(of_ascii "src3", [])]) finance_config false)
  = value (filter_results_by_category py_lower scenario_b_results
             finance_config false)
    ++ value (filter_results_by_category py_lower [(of_ascii "src3", [])]
                finance_config false).
Proof.
  assert (Hwf : results_wf (scenario_b_results ++ [(of_ascii "src3", [])]))
    by reflexivity.
  split; [exact Hwf|].
  exact (proj2 (filter_piecewise py_lower (dict str) finance_config false)
           scenario_b_results [(of_ascii "src3", [])] Hwf).
Defined.

(** X14: for every configuration, an input all of whose titles match comes
    back as it is: the items as they are, and the result set as it is when
    it has no source without titles. *)
Theorem matching_input_unchanged
    (lower : str -> str) (title_data : Type) (cfg : config) (quiet : bool) :
  (forall items,
     (forall item,
        In item items ->
        matches_content_category lower
          (dict_get_or (of_ascii "title") [] item) cfg = true) ->
     value (filter_rss_items_by_category lower items cfg quiet) = items) /\
  (forall results : dict (dict title_data),
     results_wf results ->
     (forall source_id titles,
        In (source_id, titles) results ->
        titles <> [] /\
        forall title,
          In title (dict_keys titles) ->
          matches_content_category lower title cfg = true) ->
     value (filter_results_by_category lower results cfg quiet) = results).
Proof.
  split.
  - intros items H. rewrite filter_rss_items_any.
    apply filter_all_true. exact H.
  - intros results Hwf H. destruct (enabled cfg) eqn:Hen;
      [|apply filter_results_disabled; exact Hen].
    rewrite filter_results_value by assumption. clear Hwf.
    induction results as [|[sid titles] results IH]; [reflexivity|].
    rewrite kept_sources_cons, IH
      by (intros s t Hin; apply (H s t); right; exact Hin).
    destruct (H sid titles (or_introl eq_refl)) as [Hne Hall].
    unfold kept_titles. rewrite filter_all_true.
    + destruct titles; [congruence | reflexivity].
    + intros [title data] Hin. apply Hall.
      apply In_keys_item. exists data. exact Hin.
Qed.

Lemma matching_input_unchanged_witness :
  (forall item,
     In item scenario_a_output ->
     matches_content_category py_lower
       (dict_get_or (of_ascii "title") [] item) finance_config = true) /\
  value (filter_rss_items_by_category py_lower scenario_a_output
           finance_config false) = scenario_a_output.
Proof.
  assert (H : forall item,
     In item scenario_a_output ->
     matches_content_category py_lower
       (dict_get_or (of_ascii "title") [] item) finance_config = true)
    by (intros item [<- | [<- | []]]; reflexivity).
  split; [exact H|].
  exact (proj1 (matching_input_unchanged py_lower (dict str) finance_config
                  false)
           scenario_a_output H).
Defined.

Lemma filter_comm {A : Type} (p q : A -> bool) (l : list A) :
  filter p (filter q l) = filter q (filter p l).
Proof.
  induction l as [|x l IH]; [reflexivity|]. simpl.
  destruct (p x) eqn:Ep, (q x) eqn:Eq; simpl; rewrite ?Ep, ?Eq, IH;
    reflexivity.
Qed.

(** Two enabled passes keep the titles both matchers accept and the sources
    that still have one. *)
Lemma kept_sources_twice lower title_data cfg cfg'
    (results : dict (dict title_data)) :
  kept_sources lower cfg' (kept_sources lower cfg results)
  = flat_map
      (fun entry =>
         if is_empty (filter (title_passes lower cfg')
                        (filter (title_passes lower cfg) (snd entry)))
         then []
         else [(fst entry,
                filter (title_passes lower cfg')
                  (filter (title_passes lower cfg) (snd entry)))])
      results.
Proof.
  induction results as [|[sid titles] results IH]; [reflexivity|].
  rewrite kept_sources_cons. cbn [flat_map fst snd]. rewrite <- IH.
  unfold kept_titles.
  destruct (filter (title_passes lower cfg) titles) as [|e kept] eqn:E;
    cbn [is_empty app]; [reflexivity|].
  rewrite kept_sources_cons. reflexivity.
Qed.

(** X16: two filters with two configurations commute: filtering with one
    and then with the other returns what filtering in the other order
    returns, for the items and for the result sets. *)
Theorem filters_commute
    (lower : str -> str) (title_data : Type) (cfg cfg' : config)
    (q1 q2 q3 q4 : bool) :
  (forall items,
     value (filter_rss_items_by_category lower
              (value (filter_rss_items_by_category lower items cfg q1))
              cfg' q2)
     = value (filter_rss_items_by_category lower
                (value (filter_rss_items_by_category lower items cfg' q3))
                cfg q4)) /\
  (forall results : dict (dict title_data),
     results_wf results ->
     value (filter_results_by_category lower
              (value (filter_results_by_category lower results cfg q1))
              cfg' q2)
     = value (filter_results_by_category lower
                (value (filter_results_by_category lower results cfg' q3))
                cfg q4)).
Proof.
  split.
  - intros items. rewrite !filter_rss_items_any. apply filter_comm.
  - intros results Hwf.
    destruct (enabled cfg) eqn:Hen, (enabled cfg') eqn:Hen'.
    + rewrite (@filter_results_value lower title_data cfg results q1 Hen Hwf).
      rewrite (@filter_results_value lower title_data cfg' results q3 Hen' Hwf).
      rewrite !filter_results_value
        by (assumption || (apply kept_sources_wf; exact Hwf)).
      rewrite !kept_sources_twice. apply flat_map_ext.
      intros [sid titles]. cbn [fst snd]. rewrite filter_comm. reflexivity.
    + assert (D : forall (r : dict (dict title_data)) q,
                value (filter_results_by_category lower r cfg' q) = r)
        by (intros; apply filter_results_disabled; exact Hen').
      rewrite !D. rewrite !filter_results_value by assumption. reflexivity.
    + assert (D : forall (r : dict (dict title_data)) q,
                value (filter_results_by_category lower r cfg q) = r)
        by (intros; apply filter_results_disabled; exact Hen).
      rewrite !D. rewrite !filter_results_value by assumption. reflexivity.
    + rewrite !filter_results_disabled by assumption. reflexivity.
Qed.

Lemma filters_commute_witness :
  results_wf scenario_b_results /\
  value (filter_results_by_category py_lower
           (value (filter_results_by_category py_lower scenario_b_results
                     finance_config false))
           tech_config false)
  = value (filter_results_by_category py_lower
             (value (filter_results_by_category py_lower scenario_b_results
                       tech_config false))
             finance_config false).
Proof.
  assert (Hwf : results_wf scenario_b_results) by reflexivity.
  split; [exact Hwf|].
  exact (proj2 (filters_commute py_lower (dict str) finance_config tech_config
                  false false false false)
           scenario_b_results Hwf).
Defined.
